(** * Chatroom routes of the shop backend (app/routes/chatrooms.py)

    A shallow embedding of the four request handlers [create_chatroom],
    [get_messages], [send_message] and [get_user_chatrooms], together with
    the part of the document store, of the BSON object ids and of the clock
    that the handlers rely on.

    Modelling conventions.
    - A Python [str] is a [string]; a Python [dict] with string values is a
      [gmap string string].
    - A stored document is its [_id] (an [ObjectId]) plus its remaining
      fields, all of which are strings in this program.
    - The database handle [db] maps a collection name to the documents of
      that collection in natural (insertion) order.
    - The handlers run in a state-and-exception monad over [World]: the
      database, the number of clock readings taken so far and the number of
      object ids generated so far.  A raised exception keeps the writes that
      happened before it, as in the source (there is no transaction).
    - [datetime.utcnow().isoformat()] and the id generator of [insert_one]
      are oracles, fixed once for the whole development as the variables of
      the section [Routes]. *)

From Stdlib Require Import Ascii String NArith.
From stdpp Require Import gmap strings list fin_maps.

(** ** BSON object ids *)

(** [bson.ObjectId]: the bytes of the id, kept in its [binary] attribute;
    they are twelve for every id the driver generates. *)
Record ObjectId := { binary : list N }.

Global Instance ObjectId_eq_dec : EqDecision ObjectId.
Proof. solve_decision. Defined.

(** The value of one hexadecimal digit, as [bytes.fromhex] reads it: both
    letter cases are accepted. *)
Definition hexval (c : ascii) : option N :=
  let n := N_of_ascii c in
  if (48 <=? n)%N && (n <=? 57)%N then Some (n - 48)%N
  else if (97 <=? n)%N && (n <=? 102)%N then Some (n - 87)%N
  else if (65 <=? n)%N && (n <=? 70)%N then Some (n - 55)%N
  else None.

(** ASCII whitespace, which [bytes.fromhex] skips: tab, line feed, vertical
    tab, form feed, carriage return and space. *)
Definition is_space (c : ascii) : bool :=
  let n := N_of_ascii c in
  ((9 <=? n)%N && (n <=? 13)%N) || (n =? 32)%N.

(** [bytes.fromhex]: pairs of hexadecimal digits; ASCII whitespace is
    skipped before, between and after the pairs, but not inside a pair. Any
    other character, and a digit without its second digit, is an error
    ([None]). *)
Fixpoint fromhex (s : string) : option (list N) :=
  match s with
  | EmptyString => Some []
  | String c1 rest =>
      if is_space c1 then fromhex rest
      else
        match hexval c1, rest with
        | Some h, String c2 rest' =>
            match hexval c2, fromhex rest' with
            | Some l, Some bs => Some ((16 * h + l)%N :: bs)
            | _, _ => None
            end
        | _, _ => None
        end
  end.

(** [ObjectId(oid)] for a [str] argument, as the constructor of the bson
    library does it: a string of length 24 is handed to [bytes.fromhex], and
    the bytes read become the id, however many they are; a string of another
    length, or one that [bytes.fromhex] refuses, raises [InvalidId]. [None]
    stands for that exception. *)
Definition ObjectId_of_str (oid : string) : option ObjectId :=
  if decide (String.length oid = 24) then
    match fromhex oid with
    | Some bs => Some {| binary := bs |}
    | None => None
    end
  else None.

(** One lower-case hexadecimal digit. *)
Definition hexdigit (n : N) : ascii :=
  if (n <? 10)%N then ascii_of_N (48 + n) else ascii_of_N (87 + n).

(** [binascii.hexlify]. *)
Fixpoint hexlify (bs : list N) : string :=
  match bs with
  | [] => EmptyString
  | b :: rest =>
      String (hexdigit (b / 16)) (String (hexdigit (b mod 16)) (hexlify rest))
  end.

(** [str(oid)]: the 24 lower-case hexadecimal digits of the id. *)
Definition str (oid : ObjectId) : string := hexlify (binary oid).

(** ** Documents, filters and the store *)

(** A stored document: the [_id] the store assigned, and the other fields. *)
Record Doc := { _id : ObjectId; fields : gmap string string }.

Global Instance Doc_eq_dec : EqDecision Doc.
Proof. solve_decision. Defined.

(** The query filters the handlers build: equality on [_id], equality on a
    named field, the implicit conjunction of the keys of one filter
    document, and [$or]. *)
Inductive Filter :=
| FId (oid : ObjectId)
| FField (key value : string)
| FAnd (f g : Filter)
| FOr (f g : Filter).

Fixpoint matches (f : Filter) (d : Doc) : bool :=
  match f with
  | FId oid => bool_decide (_id d = oid)
  | FField key value => bool_decide (fields d !! key = Some value)
  | FAnd f g => matches f d && matches g d
  | FOr f g => matches f d || matches g d
  end.

(** The errors a handler can end with: the [HTTPException]s it raises
    itself, and the two unclassified ones ([bson.errors.InvalidId] from the
    [ObjectId] constructor and [KeyError] from indexing a dict). *)
Inductive Error :=
| HTTPException (status_code : nat) (detail : string)
| InvalidId (oid : string)
| KeyError (key : string).

Inductive Result (A : Type) :=
| Ok (a : A)
| Raise (e : Error).
Arguments Ok {A} a.
Arguments Raise {A} e.

(** The state the handlers act on. *)
Record World := {
  db : gmap string (list Doc);
  clock : nat;
  generated : nat
}.

(** The documents of a collection; a collection never written to is empty. *)
Definition collection (w : World) (name : string) : list Doc :=
  default [] (db w !! name).

Definition M (A : Type) : Type := World → Result A * World.

Global Instance M_ret : MRet M := λ A a w, (Ok a, w).

Global Instance M_bind : MBind M := λ A B k m w,
  match m w with
  | (Ok a, w') => k a w'
  | (Raise e, w') => (Raise e, w')
  end.

Definition raise {A} (e : Error) : M A := λ w, (Raise e, w).

(** The authenticated identity that [get_current_user] hands to a handler. *)
Record User := { user_id : string; username : string }.

(** The request body of [send_message], and the shape of one listed
    message (the pydantic model [Message]). *)
Module Message.
Record t := {
  user_id : string;
  username : string;
  content : string;
  timestamp : string
}.
End Message.

(** The pydantic model [ChatroomResponse]. *)
Record ChatroomResponse := {
  chatroom_id : string;
  seller_name : string;
  seller_avatar : string
}.

(** The [{"status": ..., "data": ...}] dict the handlers return. *)
Record Envelope (A : Type) := { status : string; data : A }.
Arguments status {A} _.
Arguments data {A} _.

Section Routes.

(** [utcnow_iso n]: what [datetime.utcnow().isoformat()] returns at the
    [n]-th reading of the clock. *)
Variable utcnow_iso : nat → string.

(** [new_oid n]: the [n]-th object id the driver generates. *)
Variable new_oid : nat → ObjectId.

(** *** Store operations *)

(** [db[name].find_one(filter)]: the first matching document. *)
Definition find_one (name : string) (f : Filter) : M (option Doc) :=
  λ w, (Ok (head (filter (λ d, matches f d = true) (collection w name))), w).

(** [db[name].find(filter).to_list(length)]. *)
Definition find_to_list (name : string) (f : Filter) (length : nat)
  : M (list Doc) :=
  λ w, (Ok (take length (filter (λ d, matches f d = true) (collection w name))), w).

(** [db[name].insert_one(document)]: the document gets a generated [_id]
    and goes to the end of the collection; the id is the result. *)
Definition insert_one (name : string) (document : gmap string string)
  : M ObjectId :=
  λ w,
    let oid := new_oid (generated w) in
    (Ok oid,
     {| db := <[name := collection w name
                        ++ [{| _id := oid; fields := document |}]]> (db w);
        clock := clock w;
        generated := S (generated w) |}).

(** [datetime.utcnow().isoformat()]. *)
Definition utcnow : M string :=
  λ w, (Ok (utcnow_iso (clock w)),
        {| db := db w; clock := S (clock w); generated := generated w |}).

(** [document[key]] for a key other than [_id]. *)
Definition getitem (document : Doc) (key : string) : M string :=
  match fields document !! key with
  | Some v => mret v
  | None => raise (KeyError key)
  end.

(** [ObjectId(chatroom_id)]. *)
Definition ObjectId_ (oid : string) : M ObjectId :=
  match ObjectId_of_str oid with
  | Some o => mret o
  | None => raise (InvalidId oid)
  end.

(** *** The handlers *)

(** The membership filter of [get_messages] and [send_message]. *)
Definition member_filter (oid : ObjectId) (user : User) : Filter :=
  FAnd (FId oid)
       (FOr (FField "user_id" (user_id user))
            (FField "seller_id" (user_id user))).

(** The filter of the duplicate check of [create_chatroom]: both fields
    must match exactly. *)
Definition pair_filter (user : User) (seller_id : string) : Filter :=
  FAnd (FField "user_id" (user_id user)) (FField "seller_id" seller_id).

(** A document that [find_one] returns has at least its [_id], so it is a
    non-empty dict and the tests [if existing_chatroom], [if not chatroom]
    and [if seller] of the source only ask whether a document was found. *)
Definition create_chatroom (seller_id : string) (user : User)
  : M (Envelope (gmap string string)) :=
  if decide (user_id user = seller_id) then
    raise (HTTPException 400 "User cannot create a chatroom with themselves.")
  else
    existing_chatroom ← find_one "chatrooms" (pair_filter user seller_id);
    match existing_chatroom with
    | Some _ =>
        raise (HTTPException 400
                 "Chatroom already exists between this user and seller.")
    | None =>
        now ← utcnow;
        let chatroom_data : gmap string string :=
          <["user_id" := user_id user]>
            (<["seller_id" := seller_id]> (<["created_at" := now]> ∅)) in
        inserted_id ← insert_one "chatrooms" chatroom_data;
        mret {| status := "OK";
                data := <["chatroom_id" := str inserted_id]>
                          (<["message" := "Chatroom created successfully"]> ∅) |}
    end.

(** The dict built for one message by the comprehension that ends
    [get_messages]; the keys are read in the order of the source. *)
Definition message_view (message : Doc) : M Message.t :=
  u ← getitem message "user_id";
  n ← getitem message "username";
  c ← getitem message "content";
  t ← getitem message "timestamp";
  mret {| Message.user_id := u; Message.username := n;
          Message.content := c; Message.timestamp := t |}.

Fixpoint message_views (messages : list Doc) : M (list Message.t) :=
  match messages with
  | [] => mret []
  | message :: rest =>
      v ← message_view message;
      vs ← message_views rest;
      mret (v :: vs)
  end.

Definition get_messages (chatroom_id : string) (user : User)
  : M (list Message.t) :=
  oid ← ObjectId_ chatroom_id;
  chatroom ← find_one "chatrooms" (member_filter oid user);
  match chatroom with
  | None =>
      raise (HTTPException 404
               "Chatroom not found or you are not part of this chatroom")
  | Some _ =>
      messages ← find_to_list "messages" (FField "chatroom_id" chatroom_id) 100;
      match messages with
      | [] => raise (HTTPException 404 "No messages found in this chatroom")
      | _ :: _ => message_views messages
      end
  end.

Definition send_message (chatroom_id : string) (message : Message.t)
    (user : User) : M (Envelope (gmap string string)) :=
  oid ← ObjectId_ chatroom_id;
  chatroom ← find_one "chatrooms" (member_filter oid user);
  match chatroom with
  | None =>
      raise (HTTPException 404
               "Chatroom not found or you are not part of this chatroom")
  | Some chatroom =>
      now ← utcnow;
      let user_message : gmap string string :=
        <["chatroom_id" := chatroom_id]>
          (<["user_id" := user_id user]>
             (<["username" := username user]>
                (<["content" := Message.content message]>
                   (<["timestamp" := now]> ∅)))) in
      _ ← insert_one "messages" user_message;
      seller ← getitem chatroom "seller_id";
      now' ← utcnow;
      let seller_reply : gmap string string :=
        <["chatroom_id" := chatroom_id]>
          (<["user_id" := seller]>
             (<["username" := "Seller"]>
                (<["content" :=
                     "Thank you for your message. We will get back to you shortly."]>
                   (<["timestamp" := now']> ∅)))) in
      _ ← insert_one "messages" seller_reply;
      mret {| status := "OK";
              data := <["message" := "Message sent successfully"]> ∅ |}
  end.

(** The [for] loop of [get_user_chatrooms]; [chatroom_responses] is the
    list built so far. *)
Fixpoint chatroom_loop (chatrooms : list Doc)
    (chatroom_responses : list ChatroomResponse)
  : M (list ChatroomResponse) :=
  match chatrooms with
  | [] => mret chatroom_responses
  | chatroom :: rest =>
      seller_id ← getitem chatroom "seller_id";
      seller ← find_one "sellers" (FField "seller_id" seller_id);
      match seller with
      | Some seller =>
          chatroom_loop rest
            (chatroom_responses ++
               [{| chatroom_id := str (_id chatroom);
                   seller_name := default "Unknown" (fields seller !! "name");
                   seller_avatar := default EmptyString (fields seller !! "image") |}])
      | None => chatroom_loop rest chatroom_responses
      end
  end.

Definition get_user_chatrooms (user : User)
  : M (Envelope (gmap string (list ChatroomResponse))) :=
  let user_id := user_id user in
  chatrooms ← find_to_list "chatrooms" (FField "user_id" user_id) 100;
  match chatrooms with
  | [] => raise (HTTPException 404 "No chatrooms found for this user")
  | _ :: _ =>
      chatroom_responses ← chatroom_loop chatrooms [];
      mret {| status := "OK";
              data := <["chatrooms" := chatroom_responses]> ∅ |}
  end.

End Routes.

(** ** Sequential executions *)

(** One request to the service. *)
Inductive Request :=
| CreateChatroom (seller_id : string) (user : User)
| GetMessages (chatroom_id : string) (user : User)
| SendMessage (chatroom_id : string) (message : Message.t) (user : User)
| GetUserChatrooms (user : User).

Section Executions.

Variable utcnow_iso : nat → string.
Variable new_oid : nat → ObjectId.

(** The world a request leaves behind, whether it succeeds or fails. *)
Definition handle (r : Request) (w : World) : World :=
  match r with
  | CreateChatroom seller_id user =>
      snd (create_chatroom utcnow_iso new_oid seller_id user w)
  | GetMessages chatroom_id user => snd (get_messages chatroom_id user w)
  | SendMessage chatroom_id message user =>
      snd (send_message utcnow_iso new_oid chatroom_id message user w)
  | GetUserChatrooms user => snd (get_user_chatrooms user w)
  end.

(** Requests handled one after the other. *)
Definition run (rs : list Request) (w : World) : World :=
  foldl (λ w r, handle r w) w rs.

(** The chatroom document [create_chatroom] stores. *)
Definition chatroom_doc (seller_id : string) (user : User) (w : World) : Doc :=
  {| _id := new_oid (generated w);
     fields := <["user_id" := user_id user]>
                 (<["seller_id" := seller_id]>
                    (<["created_at" := utcnow_iso (clock w)]> ∅)) |}.

End Executions.

(** ** Vocabulary of the statements *)

(** The value of a successful outcome. *)
Definition fst_ok {A : Type} (r : Result A * World) : option A :=
  match fst r with
  | Ok a => Some a
  | Raise _ => None
  end.


(** The [HTTPException]s of the handlers. *)
Definition not_found_or_not_member : Error :=
  HTTPException 404 "Chatroom not found or you are not part of this chatroom".

Definition no_messages : Error :=
  HTTPException 404 "No messages found in this chatroom".

Definition no_chatrooms : Error :=
  HTTPException 404 "No chatrooms found for this user".

Definition self_chatroom : Error :=
  HTTPException 400 "User cannot create a chatroom with themselves.".

Definition conflict : Error :=
  HTTPException 400 "Chatroom already exists between this user and seller.".

(** A character that [bytes.fromhex] reads as a digit. *)
Definition is_hex (c : ascii) : Prop := is_Some (hexval c).

(** The strings [bytes.fromhex] reads: pairs of hexadecimal digits with
    ASCII whitespace before, between and after the pairs. *)
Inductive hex_pairs : string → Prop :=
| hex_pairs_empty : hex_pairs EmptyString
| hex_pairs_space (c : ascii) (s : string) :
    is_space c = true → hex_pairs s → hex_pairs (String c s)
| hex_pairs_pair (c1 c2 : ascii) (s : string) :
    is_hex c1 → is_hex c2 → hex_pairs s →
    hex_pairs (String c1 (String c2 s)).

(** An object id as the driver makes them: twelve bytes. *)
Definition twelve_bytes (oid : ObjectId) : Prop :=
  length (binary oid) = 12 ∧ Forall (λ b, (b < 256)%N) (binary oid).

(** [requester] is the buyer or the seller of the chatroom [d]. *)
Definition is_member (requester : string) (d : Doc) : Prop :=
  fields d !! "user_id" = Some requester ∨
  fields d !! "seller_id" = Some requester.

Global Instance is_member_dec (requester : string) (d : Doc) :
  Decision (is_member requester d).
Proof. unfold is_member. apply _. Defined.

(** The store holds a chatroom with id [oid] of which [requester] is a
    member. *)
Definition member_room (w : World) (oid : ObjectId) (requester : string) : Prop :=
  ∃ d, d ∈ collection w "chatrooms" ∧ _id d = oid ∧ is_member requester d.

Global Instance member_room_dec (w : World) (oid : ObjectId) (requester : string) :
  Decision (member_room w oid requester).
Proof.
  destruct (decide (Exists (λ d, _id d = oid ∧ is_member requester d)
                      (collection w "chatrooms"))) as [Hex|Hno].
  - left. apply Exists_exists in Hex. exact Hex.
  - right. intros Hhas. apply Hno. apply Exists_exists. exact Hhas.
Defined.

(** The store holds a chatroom for the ordered pair [(u, s)]. *)
Definition has_chatroom (w : World) (u s : string) : Prop :=
  ∃ d, d ∈ collection w "chatrooms" ∧
       fields d !! "user_id" = Some u ∧ fields d !! "seller_id" = Some s.

Global Instance has_chatroom_dec (w : World) (u s : string) :
  Decision (has_chatroom w u s).
Proof.
  destruct (decide (Exists (λ d, fields d !! "user_id" = Some u ∧
                                 fields d !! "seller_id" = Some s)
                      (collection w "chatrooms"))) as [Hex|Hno].
  - left. apply Exists_exists in Hex. exact Hex.
  - right. intros Hhas. apply Hno. apply Exists_exists. exact Hhas.
Defined.

(** The ordered pair a chatroom document stands for. *)
Definition pair_of (d : Doc) : option (string * string) :=
  match fields d !! "user_id", fields d !! "seller_id" with
  | Some u, Some s => Some (u, s)
  | _, _ => None
  end.

(** The invariant of the data model: no ordered pair has two chatrooms. *)
Definition one_chatroom_per_pair (w : World) : Prop :=
  NoDup (omap pair_of (collection w "chatrooms")).

Global Instance one_chatroom_per_pair_dec (w : World) :
  Decision (one_chatroom_per_pair w).
Proof. unfold one_chatroom_per_pair. apply _. Defined.

(** The [_id]s of the chatrooms are pairwise different, as the store
    guarantees for every collection. *)
Definition unique_chatroom_ids (w : World) : Prop :=
  NoDup (_id <$> collection w "chatrooms").

Global Instance unique_chatroom_ids_dec (w : World) :
  Decision (unique_chatroom_ids w).
Proof. unfold unique_chatroom_ids. apply _. Defined.

(** The document [send_message] stores for the requester's own message. *)
Definition user_message_doc (oid : ObjectId) (chatroom_id : string)
    (user : User) (content now : string) : Doc :=
  {| _id := oid;
     fields := <["chatroom_id" := chatroom_id]>
                 (<["user_id" := user_id user]>
                    (<["username" := username user]>
                       (<["content" := content]>
                          (<["timestamp" := now]> ∅)))) |}.

(** The document [send_message] stores for the canned reply of the seller. *)
Definition seller_reply_doc (oid : ObjectId) (chatroom_id seller now : string)
  : Doc :=
  {| _id := oid;
     fields := <["chatroom_id" := chatroom_id]>
                 (<["user_id" := seller]>
                    (<["username" := "Seller"]>
                       (<["content" :=
                            "Thank you for your message. We will get back to you shortly."]>
                          (<["timestamp" := now]> ∅)))) |}.

(** The stored messages of a chatroom id, in store order. *)
Definition stored_messages (w : World) (chatroom_id : string) : list Doc :=
  filter (λ d, fields d !! "chatroom_id" = Some chatroom_id)
    (collection w "messages").

(** [m] carries the [user_id], [username], [content] and [timestamp] of the
    stored message [d]. *)
Definition shows (d : Doc) (m : Message.t) : Prop :=
  fields d !! "user_id" = Some (Message.user_id m) ∧
  fields d !! "username" = Some (Message.username m) ∧
  fields d !! "content" = Some (Message.content m) ∧
  fields d !! "timestamp" = Some (Message.timestamp m).

(** The chatrooms [get_user_chatrooms] fetches for a requester. *)
Definition fetched_chatrooms (w : World) (requester : string) : list Doc :=
  take 100 (filter (λ d, fields d !! "user_id" = Some requester)
              (collection w "chatrooms")).

(** The Directory lookup [find_seller] of the specification: the Seller
    record with this [seller_id], if there is one. *)
Definition find_seller (w : World) (seller_id : string) : option Doc :=
  head (filter (λ s, fields s !! "seller_id" = Some seller_id)
          (collection w "sellers")).

(** The listing rule in the words of the specification: a chatroom whose
    Seller lookup misses gives no record; otherwise it gives a summary
    record whose [seller_name] defaults to "Unknown" and whose
    [seller_avatar] defaults to the empty string. *)
Definition summary (w : World) (chatroom : Doc) : option ChatroomResponse :=
  match fields chatroom !! "seller_id" with
  | None => None
  | Some seller_id =>
      match find_seller w seller_id with
      | None => None
      | Some seller =>
          Some {| chatroom_id := str (_id chatroom);
                  seller_name := match fields seller !! "name" with
                                 | Some name => name
                                 | None => "Unknown"
                                 end;
                  seller_avatar := match fields seller !! "image" with
                                   | Some image => image
                                   | None => EmptyString
                                   end |}
      end
  end.

(** ** A small scenario *)

Module Scenario.

(** A clock that advances by one second per reading. *)
Definition clock_at (n : nat) : string :=
  match n with
  | 0 => "2024-05-01T10:00:00"
  | 1 => "2024-05-01T10:00:01"
  | 2 => "2024-05-01T10:00:02"
  | 3 => "2024-05-01T10:00:03"
  | _ => "2024-05-01T10:00:04"
  end.

(** Object ids that count up from zero. *)
Definition oid_at (n : nat) : ObjectId :=
  {| binary := replicate 11 0%N ++ [N.of_nat n] |}.

Definition alice : User := {| user_id := "u1"; username := "alice" |}.
Definition bob : User := {| user_id := "u2"; username := "bob" |}.
Definition shop : User := {| user_id := "s1"; username := "shop" |}.

(** The ids of the first and of the second chatroom. *)
Definition c0 : string := "000000000000000000000000".
Definition c1 : string := "000000000000000000000001".

(** Two Seller records: [s1] has neither [name] nor [image], [s3] has
    both; there is no record for [s2]. *)
Definition sellers0 : list Doc :=
  [ {| _id := {| binary := replicate 12 7%N |};
       fields := <["seller_id" := "s1"]> ∅ |};
    {| _id := {| binary := replicate 12 8%N |};
       fields := <["seller_id" := "s3"]>
                   (<["name" := "Corner Shop"]>
                      (<["image" := "https://img.example/s3.png"]> ∅)) |} ].

(** The empty store with these sellers. *)
Definition w0 : World :=
  {| db := <["sellers" := sellers0]> ∅; clock := 0; generated := 0 |}.

(** Alice opens a chatroom with [s1], then one with [s2]. *)
Definition w1 : World :=
  run clock_at oid_at [CreateChatroom "s1" alice; CreateChatroom "s2" alice] w0.

(** Alice says "Hi" in the first chatroom; the body claims another author. *)
Definition hi : Message.t :=
  {| Message.user_id := "u2"; Message.username := "bob";
     Message.content := "Hi"; Message.timestamp := "1999-01-01T00:00:00" |}.

Definition empty_message : Message.t :=
  {| Message.user_id := EmptyString; Message.username := EmptyString;
     Message.content := EmptyString; Message.timestamp := EmptyString |}.

Definition w2 : World := run clock_at oid_at [SendMessage c0 hi alice] w1.

(** Alice sends the empty message instead. *)
Definition w_empty_sent : World :=
  snd (send_message clock_at oid_at c0 empty_message alice w1).

(** Alice opens her first chatroom, and then goes on. *)
Definition w_first : World :=
  snd (create_chatroom clock_at oid_at "s1" alice w0).

Definition w_later : World :=
  run clock_at oid_at
    [CreateChatroom "s2" alice; SendMessage c0 hi alice] w_first.

(** A store with one chatroom, of Alice with [s1], whose id has letters;
    the id in lower case, as [str] prints it, and in upper case. *)
Definition room_ab : Doc :=
  {| _id := {| binary := replicate 11 0%N ++ [171%N] |};
     fields := <["user_id" := "u1"]>
                 (<["seller_id" := "s1"]>
                    (<["created_at" := "2024-04-30T09:00:00"]> ∅)) |}.

Definition w_ab : World :=
  {| db := <["chatrooms" := [room_ab]]> ∅; clock := 0; generated := 0 |}.

Definition c_ab : string := "0000000000000000000000ab".
Definition c_AB : string := "0000000000000000000000AB".

(** A body with the content of [hi] that names nobody. *)
Definition anonymous_hi : Message.t :=
  {| Message.user_id := EmptyString; Message.username := EmptyString;
     Message.content := "Hi"; Message.timestamp := EmptyString |}.

End Scenario.

(** ** Further vocabulary: outcomes and store conditions *)

(** The error a handler ends with, if it ends with one. *)
Definition error_of {A : Type} (r : Result A * World) : option Error :=
  match fst r with
  | Ok _ => None
  | Raise e => Some e
  end.

Section Outcomes.

Variable utcnow_iso : nat → string.
Variable new_oid : nat → ObjectId.

(** The error a request ends with, if any. *)
Definition handle_error (r : Request) (w : World) : option Error :=
  match r with
  | CreateChatroom seller_id user =>
      error_of (create_chatroom utcnow_iso new_oid seller_id user w)
  | GetMessages chatroom_id user => error_of (get_messages chatroom_id user w)
  | SendMessage chatroom_id message user =>
      error_of (send_message utcnow_iso new_oid chatroom_id message user w)
  | GetUserChatrooms user => error_of (get_user_chatrooms user w)
  end.

(** Every chatroom id was handed out by the generator, at an index below
    the number of ids generated so far. *)
Definition ids_generated (w : World) : Prop :=
  Forall (λ d, _id d ∈ new_oid <$> seq 0 (generated w))
    (collection w "chatrooms").

End Outcomes.

(** The keys the comprehension of [get_messages] reads. *)
Definition message_keys : list string :=
  ["user_id"; "username"; "content"; "timestamp"].

(** A chatroom document with a [seller_id]. *)
Definition has_seller_id (d : Doc) : Prop := is_Some (fields d !! "seller_id").

Global Instance has_seller_id_dec (d : Doc) : Decision (has_seller_id d).
Proof. unfold has_seller_id. apply _. Defined.

(** A message document with the four keys [get_messages] reads. *)
Definition message_complete (d : Doc) : Prop :=
  Forall (λ key, is_Some (fields d !! key)) message_keys.

Global Instance message_complete_dec (d : Doc) : Decision (message_complete d).
Proof. unfold message_complete. apply _. Defined.

(** A store on which no handler can miss a key: every chatroom has a
    [seller_id] and every message has its four keys. *)
Definition well_formed (w : World) : Prop :=
  Forall has_seller_id (collection w "chatrooms") ∧
  Forall message_complete (collection w "messages").

Global Instance well_formed_dec (w : World) : Decision (well_formed w).
Proof. unfold well_formed. apply _. Defined.

(** A chatroom document that does not pair an identity with itself. *)
Definition distinct_pair (d : Doc) : Prop :=
  match pair_of d with
  | Some (u, s) => u ≠ s
  | None => True
  end.

Global Instance distinct_pair_dec (d : Doc) : Decision (distinct_pair d).
Proof. unfold distinct_pair. destruct (pair_of d) as [[u s]|]; apply _. Defined.

(** No stored chatroom pairs an identity with itself. *)
Definition no_self_chatroom (w : World) : Prop :=
  Forall distinct_pair (collection w "chatrooms").

Global Instance no_self_chatroom_dec (w : World) : Decision (no_self_chatroom w).
Proof. unfold no_self_chatroom. apply _. Defined.

(** The message [m] is filed under an id that denotes a stored chatroom of
    which the author of [m] is a member. *)
Definition message_in_room (w : World) (m : Doc) : Prop :=
  match fields m !! "chatroom_id", fields m !! "user_id" with
  | Some c, Some u =>
      match ObjectId_of_str c with
      | Some oid => member_room w oid u
      | None => False
      end
  | _, _ => False
  end.

Global Instance message_in_room_dec (w : World) (m : Doc) :
  Decision (message_in_room w m).
Proof.
  unfold message_in_room.
  destruct (fields m !! "chatroom_id") as [c|]; [|apply _].
  destruct (fields m !! "user_id") as [u|]; [|apply _].
  destruct (ObjectId_of_str c) as [oid|]; apply _.
Defined.

(** Every stored message belongs to a stored chatroom of its author. *)
Definition messages_in_rooms (w : World) : Prop :=
  Forall (message_in_room w) (collection w "messages").

Global Instance messages_in_rooms_dec (w : World) : Decision (messages_in_rooms w).
Proof. unfold messages_in_rooms. apply _. Defined.

(** What [get_messages] shows of the two documents of [send_message]. *)
Definition user_view (user : User) (content now : string) : Message.t :=
  {| Message.user_id := user_id user; Message.username := username user;
     Message.content := content; Message.timestamp := now |}.

Definition seller_view (seller now : string) : Message.t :=
  {| Message.user_id := seller; Message.username := "Seller";
     Message.content :=
       "Thank you for your message. We will get back to you shortly.";
     Message.timestamp := now |}.

(** The acknowledgements of [create_chatroom] and of [send_message]. *)
Definition created (oid : ObjectId) : Envelope (gmap string string) :=
  {| status := "OK";
     data := <["chatroom_id" := str oid]>
               (<["message" := "Chatroom created successfully"]> ∅) |}.

Definition sent : Envelope (gmap string string) :=
  {| status := "OK"; data := <["message" := "Message sent successfully"]> ∅ |}.

(** ** Further scenarios *)

Module Scenario2.
Import Scenario.

(** A chatroom of Alice whose document lacks its [seller_id]. *)
Definition room_no_seller : Doc :=
  {| _id := {| binary := replicate 12 9%N |};
     fields := <["user_id" := "u1"]>
                 (<["created_at" := "2024-04-30T09:00:00"]> ∅) |}.

Definition c_no_seller : string := "090909090909090909090909".

Definition w_no_seller : World :=
  {| db := <["chatrooms" := [room_no_seller]]> ∅; clock := 0; generated := 0 |}.

(** The store [w2] with one more message in the first chatroom, a message
    that has no [content]. *)
Definition message_no_content : Doc :=
  {| _id := {| binary := replicate 12 5%N |};
     fields := <["chatroom_id" := c0]>
                 (<["user_id" := "u1"]>
                    (<["username" := "alice"]>
                       (<["timestamp" := "2024-05-01T10:00:09"]> ∅))) |}.

Definition w_no_content : World :=
  {| db := <["messages" := collection w2 "messages" ++ [message_no_content]]>
             (db w2);
     clock := clock w2; generated := generated w2 |}.

(** The store [w1] with a hundred messages in the first chatroom. *)
Definition old_message : Doc :=
  user_message_doc {| binary := replicate 12 6%N |} c0 alice "old"
    "2024-04-30T08:00:00".

Definition w_full : World :=
  {| db := <["messages" := replicate 100 old_message]> (db w1);
     clock := clock w1; generated := generated w1 |}.

(** A string of length 24 that is not 24 hexadecimal digits: eleven pairs
    between two spaces. *)
Definition c_ws : string := " ffffffffffffffffffffff ".

(** The Seller record of [s3]. *)
Definition seller_s3 : Doc :=
  {| _id := {| binary := replicate 12 8%N |};
     fields := <["seller_id" := "s3"]>
                 (<["name" := "Corner Shop"]>
                    (<["image" := "https://img.example/s3.png"]> ∅)) |}.

End Scenario2.

(** * Properties *)

(** ** Object ids *)

Lemma hexval_hexdigit (n : N) : (n < 16)%N → hexval (hexdigit n) = Some n.
Proof.
  intros Hn. destruct n as [|p]; [reflexivity|].
  do 4 (try destruct p as [p|p|]); try reflexivity; lia.
Qed.

Lemma length_hexlify (bs : list N) :
  String.length (hexlify bs) = 2 * length bs.
Proof. induction bs as [|b bs IH]; simpl; [done|]. rewrite IH. lia. Qed.

Lemma hexval_not_space (c : ascii) : is_hex c → is_space c = false.
Proof.
  intros [h Hh].
  destruct c as [[] [] [] [] [] [] [] []]; try reflexivity;
    vm_compute in Hh; discriminate.
Qed.

Lemma fromhex_space (c : ascii) (s : string) :
  is_space c = true → fromhex (String c s) = fromhex s.
Proof. intros Hc. cbn [fromhex]. by rewrite Hc. Qed.

Lemma fromhex_pair (c1 c2 : ascii) (s : string) (h l : N) :
  hexval c1 = Some h → hexval c2 = Some l →
  fromhex (String c1 (String c2 s))
  = match fromhex s with
    | Some bs => Some ((16 * h + l)%N :: bs)
    | None => None
    end.
Proof.
  intros H1 H2. cbn [fromhex].
  rewrite (hexval_not_space c1) by (by eexists). by rewrite H1, H2.
Qed.

Lemma fromhex_hexlify (bs : list N) :
  Forall (λ b, (b < 256)%N) bs → fromhex (hexlify bs) = Some bs.
Proof.
  induction 1 as [|b bs Hb _ IH]; [done|].
  cbn [hexlify].
  rewrite (fromhex_pair _ _ _ (b / 16) (b mod 16)), IH.
  - do 2 f_equal. symmetry. apply N.div_mod. lia.
  - apply hexval_hexdigit, N.Div0.div_lt_upper_bound. lia.
  - apply hexval_hexdigit, N.mod_lt. lia.
Qed.

(** The string of a twelve-byte id reads back as that id. *)
Lemma ObjectId_of_str_str (oid : ObjectId) :
  twelve_bytes oid → ObjectId_of_str (str oid) = Some oid.
Proof.
  intros [Hlen Hbytes]. unfold ObjectId_of_str, str.
  rewrite length_hexlify, Hlen, decide_True by done.
  rewrite fromhex_hexlify by done. by destruct oid.
Qed.

(** [bytes.fromhex] reads exactly the strings of digit pairs and
    whitespace. *)
Lemma fromhex_is_Some (s : string) : is_Some (fromhex s) ↔ hex_pairs s.
Proof.
  split.
  - revert s.
    assert (∀ s, (is_Some (fromhex s) → hex_pairs s) ∧
                 (∀ c, is_Some (fromhex (String c s)) → hex_pairs (String c s)))
      as Hboth; [|intros s; apply Hboth].
    induction s as [|a s [IH1 IH2]].
    + split; [intros _; constructor|]. intros c. cbn [fromhex].
      destruct (is_space c) eqn:Hc.
      * intros _. apply hex_pairs_space; [done | constructor].
      * destruct (hexval c); by intros [? ?].
    + split; [apply IH2|]. intros c.
      destruct (is_space c) eqn:Hc.
      * rewrite fromhex_space by done. intros Ha.
        apply hex_pairs_space; [done | by apply IH2].
      * cbn [fromhex]. rewrite Hc.
        destruct (hexval c) as [h|] eqn:Hh; [|by intros [? ?]].
        destruct (hexval a) as [l|] eqn:Hl; [|by intros [? ?]].
        destruct (fromhex s) as [bs|] eqn:Hs; [|by intros [? ?]].
        intros _. apply hex_pairs_pair; [by eexists | by eexists |].
        apply IH1. by eexists.
  - induction 1 as [|c s Hc _ IH|c1 c2 s [h Hh] [l Hl] _ [bs IH]].
    + by eexists.
    + by rewrite fromhex_space.
    + rewrite (fromhex_pair _ _ _ h l), IH by done. by eexists.
Qed.

(** The ids the constructor accepts. *)
Lemma ObjectId_of_str_is_Some (s : string) :
  is_Some (ObjectId_of_str s) ↔ String.length s = 24 ∧ hex_pairs s.
Proof.
  unfold ObjectId_of_str. rewrite <- fromhex_is_Some.
  destruct (decide (String.length s = 24)) as [Hlen|Hlen].
  - destruct (fromhex s) as [bs|].
    + split; [intros _; split; [done | by eexists] | by eexists].
    + split; [by intros [? ?] | by intros [_ [? ?]]].
  - split; [by intros [? ?] | by intros [? _]].
Qed.

(** A string that [bytes.fromhex] reads has digits and whitespace only. *)
Lemma hex_pairs_chars (s : string) :
  hex_pairs s →
  Forall (λ c, is_hex c ∨ is_space c = true) (list_ascii_of_string s).
Proof.
  induction 1 as [|c s Hc _ IH|c1 c2 s H1 H2 _ IH]; simpl.
  - constructor.
  - constructor; [by right | done].
  - constructor; [by left|]. constructor; [by left | done].
Qed.

(** An even number of hexadecimal digits is read. *)
Lemma hex_digits_pairs (n : nat) (s : string) :
  String.length s = 2 * n →
  Forall is_hex (list_ascii_of_string s) →
  hex_pairs s.
Proof.
  revert s. induction n as [|n IH]; intros s Hlen Hhex.
  - destruct s; [constructor | discriminate].
  - destruct s as [|c1 [|c2 rest]]; simpl in *; [lia|lia|].
    apply Forall_cons in Hhex as [H1 Hhex].
    apply Forall_cons in Hhex as [H2 Hhex].
    apply hex_pairs_pair; [done|done|]. apply IH; [lia|done].
Qed.

(** ** Basic facts about the store operations *)

Section StoreFacts.

Context {A : Type} (P : A → Prop) `{!∀ x, Decision (P x)}.

Lemma filter_none_nil (l : list A) :
  (∀ x, x ∈ l → ¬ P x) → filter P l = [].
Proof.
  induction l as [|a l IH]; intros Hall; [done|].
  rewrite filter_cons. destruct (decide (P a)) as [Ha|Ha].
  - exfalso. apply (Hall a); [left | done].
  - apply IH. intros x Hx. apply Hall. by right.
Qed.

Lemma head_filter_None (l : list A) :
  (∀ x, x ∈ l → ¬ P x) → head (filter P l) = None.
Proof. intros Hall. by rewrite filter_none_nil. Qed.

Lemma head_filter_is_Some (l : list A) (x : A) :
  x ∈ l → P x → is_Some (head (filter P l)).
Proof.
  intros Hx HP. assert (x ∈ filter P l) as Hin.
  { by apply list_elem_of_filter. }
  destruct (filter P l); [by apply not_elem_of_nil in Hin | by eexists].
Qed.

End StoreFacts.

Lemma length_omap_le {A B : Type} (f : A → option B) (l : list A) :
  length (omap f l) ≤ length l.
Proof.
  induction l as [|a l IH]; [done|].
  change (omap f (a :: l))
    with (match f a with Some b => b :: omap f l | None => omap f l end).
  destruct (f a); simpl; lia.
Qed.

Lemma matches_member_filter (oid : ObjectId) (user : User) (d : Doc) :
  matches (member_filter oid user) d = true ↔
  _id d = oid ∧ is_member (user_id user) d.
Proof.
  unfold member_filter, is_member. simpl.
  rewrite andb_true_iff, orb_true_iff, !bool_decide_eq_true. tauto.
Qed.

Lemma matches_pair_filter (user : User) (s : string) (d : Doc) :
  matches (pair_filter user s) d = true ↔
  fields d !! "user_id" = Some (user_id user) ∧ fields d !! "seller_id" = Some s.
Proof. simpl. rewrite andb_true_iff, !bool_decide_eq_true. tauto. Qed.

(** Without a chatroom the requester belongs to, the membership query finds
    nothing. *)
Lemma member_query_None (w : World) (oid : ObjectId) (user : User) :
  ¬ member_room w oid (user_id user) →
  head (filter (λ d, matches (member_filter oid user) d = true)
          (collection w "chatrooms")) = None.
Proof.
  intros Hno. apply head_filter_None. intros d Hd Hm.
  apply matches_member_filter in Hm as [Hid Hmem].
  apply Hno. by exists d.
Qed.

Lemma member_query_is_Some (w : World) (oid : ObjectId) (user : User) :
  member_room w oid (user_id user) →
  is_Some (head (filter (λ d, matches (member_filter oid user) d = true)
                   (collection w "chatrooms"))).
Proof.
  intros (d & Hd & Hid & Hmem). apply (head_filter_is_Some _ _ d Hd).
  by apply matches_member_filter.
Qed.

(** With pairwise different ids, the membership query finds the chatroom
    itself. *)
Lemma member_query_Some (w : World) (user : User) (room : Doc) :
  unique_chatroom_ids w →
  room ∈ collection w "chatrooms" →
  is_member (user_id user) room →
  head (filter (λ d, matches (member_filter (_id room) user) d = true)
          (collection w "chatrooms")) = Some room.
Proof.
  unfold unique_chatroom_ids. intros Hnd Hin Hmem.
  induction (collection w "chatrooms") as [|d l IH];
    [by apply not_elem_of_nil in Hin|].
  rewrite fmap_cons in Hnd. apply NoDup_cons in Hnd as [Hd Hnd].
  rewrite filter_cons.
  destruct (decide (matches (member_filter (_id room) user) d = true)) as [Hm|Hm].
  - apply matches_member_filter in Hm as [Hid _]. simpl.
    apply elem_of_cons in Hin as [->|Hin]; [done|].
    exfalso. apply Hd. rewrite Hid. by apply list_elem_of_fmap_2.
  - apply elem_of_cons in Hin as [->|Hin].
    + exfalso. apply Hm. by apply matches_member_filter.
    + by apply IH.
Qed.

Lemma pair_query_None (w : World) (user : User) (s : string) :
  ¬ has_chatroom w (user_id user) s →
  head (filter (λ d, matches (pair_filter user s) d = true)
          (collection w "chatrooms")) = None.
Proof.
  intros Hno. apply head_filter_None. intros d Hd Hm.
  apply matches_pair_filter in Hm. apply Hno. by exists d.
Qed.

Lemma pair_query_is_Some (w : World) (user : User) (s : string) :
  has_chatroom w (user_id user) s →
  is_Some (head (filter (λ d, matches (pair_filter user s) d = true)
                   (collection w "chatrooms"))).
Proof.
  intros (d & Hd & Hus). apply (head_filter_is_Some _ _ d Hd).
  by apply matches_pair_filter.
Qed.

Lemma find_messages_stored (w : World) (chatroom_id : string) :
  filter (λ d, matches (FField "chatroom_id" chatroom_id) d = true)
    (collection w "messages")
  = stored_messages w chatroom_id.
Proof.
  unfold stored_messages. apply list_filter_iff. intros d. simpl.
  by rewrite bool_decide_eq_true.
Qed.

Lemma find_chatrooms_fetched (w : World) (requester : string) :
  take 100 (filter (λ d, matches (FField "user_id" requester) d = true)
              (collection w "chatrooms"))
  = fetched_chatrooms w requester.
Proof.
  unfold fetched_chatrooms. f_equal. apply list_filter_iff. intros d. simpl.
  by rewrite bool_decide_eq_true.
Qed.

Lemma find_one_seller (w : World) (seller_id : string) :
  head (filter (λ d, matches (FField "seller_id" seller_id) d = true)
          (collection w "sellers"))
  = find_seller w seller_id.
Proof.
  unfold find_seller. f_equal. apply list_filter_iff. intros d. simpl.
  by rewrite bool_decide_eq_true.
Qed.

(** ** The read-only handlers leave the world as it is *)

Lemma message_view_world (d : Doc) (w : World) : snd (message_view d w) = w.
Proof.
  unfold message_view, getitem, mbind, M_bind.
  repeat (destruct (fields d !! _); [|done]); done.
Qed.

Lemma message_views_world (l : list Doc) (w : World) :
  snd (message_views l w) = w.
Proof.
  induction l as [|d l IH]; [done|]. simpl. unfold mbind, M_bind.
  pose proof (message_view_world d w) as Hview.
  destruct (message_view d w) as [[v|e] w1]; simpl in *; subst w1; [|done].
  destruct (message_views l w) as [[vs|e] w2]; simpl in *; by subst w2.
Qed.

Lemma get_messages_world (chatroom_id : string) (user : User) (w : World) :
  snd (get_messages chatroom_id user w) = w.
Proof.
  unfold get_messages, ObjectId_, find_one, find_to_list, mbind, M_bind.
  destruct (ObjectId_of_str chatroom_id) as [oid|]; [|done]. simpl.
  destruct (head _) as [room|]; [|done].
  destruct (take 100 _) as [|m ms] eqn:Hms; [done|].
  apply message_views_world.
Qed.

Lemma chatroom_loop_world (l : list Doc) (acc : list ChatroomResponse)
    (w : World) :
  snd (chatroom_loop l acc w) = w.
Proof.
  revert acc. induction l as [|d l IH]; intros acc; [done|].
  simpl. unfold getitem, find_one, mbind, M_bind.
  destruct (fields d !! "seller_id") as [s|]; [|done].
  unfold mret, M_ret. destruct (head _); apply IH.
Qed.

Lemma get_user_chatrooms_world (user : User) (w : World) :
  snd (get_user_chatrooms user w) = w.
Proof.
  unfold get_user_chatrooms, find_to_list, mbind, M_bind.
  destruct (take 100 _) as [|d l]; [done|].
  pose proof (chatroom_loop_world (d :: l) [] w) as Hw.
  destruct (chatroom_loop (d :: l) [] w) as [[rs|e] w1]; simpl in *; by subst w1.
Qed.

(** ** The message comprehension and the chatroom loop *)

Lemma message_view_Ok (d : Doc) (w : World) (m : Message.t) :
  fst (message_view d w) = Ok m ↔ shows d m.
Proof.
  unfold message_view, shows, getitem, mbind, M_bind.
  destruct m as [u n c t]. simpl.
  destruct (fields d !! "user_id") as [u'|]; simpl; [|by split; [|intros [? _]]].
  destruct (fields d !! "username") as [n'|]; simpl;
    [|by split; [|intros (_ & ? & _)]].
  destruct (fields d !! "content") as [c'|]; simpl;
    [|by split; [|intros (_ & _ & ? & _)]].
  destruct (fields d !! "timestamp") as [t'|]; simpl;
    [|by split; [|intros (_ & _ & _ & ?)]].
  split; [by intros [= -> -> -> ->] | by intros ([= ->] & [= ->] & [= ->] & [= ->])].
Qed.

Lemma message_views_Ok (l : list Doc) (w : World) (ms : list Message.t) :
  fst (message_views l w) = Ok ms ↔ Forall2 shows l ms.
Proof.
  revert ms. induction l as [|d l IH]; intros ms; simpl.
  - split; [intros [= <-]; constructor | by intros ->%Forall2_nil_inv_l].
  - unfold mbind, M_bind.
    pose proof (message_view_Ok d w) as Hd.
    pose proof (message_view_world d w) as Hw.
    destruct (message_view d w) as [[v|e] w1]; simpl in *; subst w1.
    + destruct (message_views l w) as [[vs|e] w2]; simpl in *.
      * split.
        -- intros [= <-]. constructor; [by apply Hd | by apply IH].
        -- intros (m & ms' & Hm & Hms & ->)%Forall2_cons_inv_l.
           apply Hd in Hm. apply IH in Hms. congruence.
      * split; [done|].
        intros (m & ms' & Hm & Hms & ->)%Forall2_cons_inv_l.
        apply IH in Hms. done.
    + split; [done|].
      intros (m & ms' & Hm & Hms & ->)%Forall2_cons_inv_l.
      apply Hd in Hm. done.
Qed.

(** The loop, when every chatroom it visits has a [seller_id]. *)
Lemma chatroom_loop_summary (l : list Doc) (acc : list ChatroomResponse)
    (w : World) :
  Forall (λ d, is_Some (fields d !! "seller_id")) l →
  chatroom_loop l acc w = (Ok (acc ++ omap (summary w) l), w).
Proof.
  intros Hall. revert acc.
  induction Hall as [|d l [s Hs] _ IH]; intros acc; simpl.
  - unfold mret, M_ret. by rewrite app_nil_r.
  - unfold getitem, find_one, mbind, M_bind, summary. rewrite Hs.
    unfold mret, M_ret. rewrite find_one_seller.
    destruct (find_seller w s) as [seller|]; [|apply IH].
    rewrite IH, <- app_assoc. simpl.
    by destruct (fields seller !! "name"), (fields seller !! "image").
Qed.

(** The loop, when it ends without an error. *)
Lemma chatroom_loop_Ok (l : list Doc) (acc rs : list ChatroomResponse)
    (w : World) :
  fst (chatroom_loop l acc w) = Ok rs → rs = acc ++ omap (summary w) l.
Proof.
  revert acc. induction l as [|d l IH]; intros acc; simpl.
  - intros [= <-]. by rewrite app_nil_r.
  - unfold getitem, find_one, mbind, M_bind, summary.
    destruct (fields d !! "seller_id") as [s|]; [|done].
    unfold mret, M_ret. rewrite find_one_seller.
    destruct (find_seller w s) as [seller|]; [|apply IH].
    intros Hok. apply IH in Hok. rewrite Hok, <- app_assoc. simpl.
    by destruct (fields seller !! "name"), (fields seller !! "image").
Qed.

(** ** Creating chatrooms, and what requests do to the chatrooms *)

Section ExecutionFacts.

Variable utcnow_iso : nat → string.
Variable new_oid : nat → ObjectId.


(** The first [create_chatroom] for a pair of different ids succeeds. *)
Lemma create_chatroom_fresh (seller_id : string) (user : User) (w : World) :
  user_id user ≠ seller_id →
  ¬ has_chatroom w (user_id user) seller_id →
  create_chatroom utcnow_iso new_oid seller_id user w
  = (Ok {| status := "OK";
           data := <["chatroom_id" := str (new_oid (generated w))]>
                     (<["message" := "Chatroom created successfully"]> ∅) |},
     {| db := <["chatrooms" :=
                  collection w "chatrooms"
                  ++ [chatroom_doc utcnow_iso new_oid seller_id user w]]> (db w);
        clock := S (clock w);
        generated := S (generated w) |}).
Proof.
  intros Hne Hno. unfold create_chatroom, find_one, mbind, M_bind.
  rewrite decide_False by done.
  by rewrite (pair_query_None w _ _ Hno).
Qed.

(** A [create_chatroom] for a pair that has a chatroom is refused. *)
Lemma create_chatroom_conflict (seller_id : string) (user : User) (w : World) :
  user_id user ≠ seller_id →
  has_chatroom w (user_id user) seller_id →
  create_chatroom utcnow_iso new_oid seller_id user w = (Raise conflict, w).
Proof.
  intros Hne Hhas. unfold create_chatroom, find_one, mbind, M_bind.
  rewrite decide_False by done.
  by destruct (pair_query_is_Some w _ _ Hhas) as [d ->].
Qed.

(** [send_message] writes to the [messages] collection only, also when it
    fails half-way. *)
Lemma send_message_other_collections (chatroom_id : string)
    (message : Message.t) (user : User) (w : World) (name : string) :
  name ≠ "messages" →
  collection
    (snd (send_message utcnow_iso new_oid chatroom_id message user w)) name
  = collection w name.
Proof.
  intros Hne. unfold send_message, ObjectId_, find_one, mbind, M_bind.
  destruct (ObjectId_of_str chatroom_id) as [oid|]; [|done].
  unfold mret, M_ret. destruct (head _) as [room|]; [|done].
  unfold utcnow, insert_one, getitem, mret, M_ret, raise.
  destruct (fields room !! "seller_id") as [s|];
    unfold collection; cbn [snd db clock generated];
    rewrite ?lookup_insert_ne by done; done.
Qed.

(** What a request can do to the [chatrooms] collection: nothing, or
    append the chatroom of a pair that had none. *)
Lemma handle_chatrooms (r : Request) (w : World) :
  collection (handle utcnow_iso new_oid r w) "chatrooms"
  = collection w "chatrooms" ∨
  ∃ seller_id user,
    ¬ has_chatroom w (user_id user) seller_id ∧
    collection (handle utcnow_iso new_oid r w) "chatrooms"
    = collection w "chatrooms"
      ++ [chatroom_doc utcnow_iso new_oid seller_id user w].
Proof.
  destruct r as [seller_id user|chatroom_id user|chatroom_id message user|user];
    simpl.
  - destruct (decide (user_id user = seller_id)) as [Heq|Hne].
    { left. unfold create_chatroom. by rewrite decide_True. }
    destruct (decide (has_chatroom w (user_id user) seller_id)) as [Hhas|Hno].
    + left. by rewrite create_chatroom_conflict.
    + right. exists seller_id, user. split; [done|].
      rewrite create_chatroom_fresh by done.
      unfold collection. cbn [snd db]. by rewrite lookup_insert_eq.
  - left. by rewrite get_messages_world.
  - left. by apply send_message_other_collections.
  - left. by rewrite get_user_chatrooms_world.
Qed.

Lemma has_chatroom_pair (w : World) (u s : string) :
  has_chatroom w u s ↔ (u, s) ∈ omap pair_of (collection w "chatrooms").
Proof.
  rewrite list_elem_of_omap. unfold has_chatroom, pair_of.
  split.
  - intros (d & Hd & Hu & Hs). exists d. by rewrite Hu, Hs.
  - intros (d & Hd & Hp). exists d. split; [done|].
    destruct (fields d !! "user_id"), (fields d !! "seller_id");
      try discriminate. by injection Hp as -> ->.
Qed.

Lemma handle_invariant (r : Request) (w : World) :
  one_chatroom_per_pair w →
  one_chatroom_per_pair (handle utcnow_iso new_oid r w).
Proof.
  unfold one_chatroom_per_pair. intros Hinv.
  destruct (handle_chatrooms r w)
    as [-> | (seller_id & user & Hno & ->)]; [done|].
  rewrite omap_app. apply NoDup_app. split; [done|]. split.
  - intros p Hp Hp'. apply list_elem_of_singleton in Hp'. subst p.
    by apply has_chatroom_pair in Hp.
  - apply NoDup_singleton.
Qed.

Lemma run_invariant (rs : list Request) (w : World) :
  one_chatroom_per_pair w →
  one_chatroom_per_pair (run utcnow_iso new_oid rs w).
Proof.
  revert w. induction rs as [|r rs IH]; intros w Hinv; [done|].
  simpl. apply IH. by apply handle_invariant.
Qed.

(** Chatrooms are never removed. *)
Lemma handle_has_chatroom (r : Request) (w : World) (u s : string) :
  has_chatroom w u s → has_chatroom (handle utcnow_iso new_oid r w) u s.
Proof.
  intros (d & Hd & Hus). exists d. split; [|done].
  destruct (handle_chatrooms r w)
    as [-> | (seller_id & user & _ & ->)]; [done|].
  apply elem_of_app. by left.
Qed.

Lemma run_has_chatroom (rs : list Request) (w : World) (u s : string) :
  has_chatroom w u s → has_chatroom (run utcnow_iso new_oid rs w) u s.
Proof.
  revert w. induction rs as [|r rs IH]; intros w Hhas; [done|].
  simpl. apply IH. by apply handle_has_chatroom.
Qed.

(** ** Main results *)

(** C1, as amended. For every chatroom id that the [ObjectId] constructor
    accepts (a string of length 24 that [bytes.fromhex] reads: 24
    hexadecimal digits, or fewer digit pairs with ASCII whitespace around
    them) and every requester, [get_messages] and [send_message] fail with
    the 404 error "Chatroom not found or you are not part of this chatroom",
    and write nothing, unless a chatroom with that id exists and the
    requester is its [user_id] or its [seller_id]; a missing chatroom and a
    chatroom of which the requester is not a member give this one and the
    same error. *)
Theorem not_member_not_found (chatroom_id : string) (oid : ObjectId)
    (message : Message.t) (user : User) (w : World) :
  ObjectId_of_str chatroom_id = Some oid →
  ¬ member_room w oid (user_id user) →
  get_messages chatroom_id user w = (Raise not_found_or_not_member, w) ∧
  send_message utcnow_iso new_oid chatroom_id message user w
    = (Raise not_found_or_not_member, w).
Proof.
  intros Hoid Hno.
  unfold get_messages, send_message, ObjectId_, find_one, mbind, M_bind.
  rewrite Hoid. unfold mret, M_ret.
  by rewrite (member_query_None w oid user Hno).
Qed.

(** C2. In a store whose chatroom ids are pairwise different, let [room] be
    the chatroom of the pair [(u, s)] that the requested id denotes and let
    the requester be [u] or [s]. Then, for every content (the empty string
    too), [send_message] succeeds and appends exactly two documents to the
    [messages] collection, in this order: the requester's message, with the
    requested chatroom id, the requester's [user_id] and [username], the
    given content and the first clock reading; then the reply, with
    [user_id] [s], [username] "Seller", the fixed content and the next clock
    reading. Every other collection is as before. *)
Theorem send_message_two_inserts (chatroom_id : string) (message : Message.t)
    (user : User) (w : World) (room : Doc) (u s : string) :
  ObjectId_of_str chatroom_id = Some (_id room) →
  unique_chatroom_ids w →
  room ∈ collection w "chatrooms" →
  fields room !! "user_id" = Some u →
  fields room !! "seller_id" = Some s →
  user_id user = u ∨ user_id user = s →
  let m1 := user_message_doc (new_oid (generated w)) chatroom_id user
              (Message.content message) (utcnow_iso (clock w)) in
  let m2 := seller_reply_doc (new_oid (S (generated w))) chatroom_id s
              (utcnow_iso (S (clock w))) in
  let w' :=
    snd (send_message utcnow_iso new_oid chatroom_id message user w) in
  fst (send_message utcnow_iso new_oid chatroom_id message user w)
    = Ok {| status := "OK";
            data := <["message" := "Message sent successfully"]> ∅ |} ∧
  collection w' "messages" = collection w "messages" ++ [m1; m2] ∧
  (∀ name, name ≠ "messages" → collection w' name = collection w name) ∧
  db w' = <["messages" := collection w "messages" ++ [m1; m2]]> (db w).
Proof.
  intros Hoid Huniq Hin Hu Hs Hreq m1 m2 w'.
  assert (is_member (user_id user) room) as Hmem.
  { unfold is_member. destruct Hreq as [->| ->]; auto. }
  assert (send_message utcnow_iso new_oid chatroom_id message user w
          = (Ok {| status := "OK";
                   data := <["message" := "Message sent successfully"]> ∅ |},
             {| db := <["messages" := collection w "messages" ++ [m1; m2]]> (db w);
                clock := S (S (clock w));
                generated := S (S (generated w)) |})) as Hrun.
  { unfold send_message, ObjectId_, find_one, mbind, M_bind.
    rewrite Hoid. unfold mret, M_ret.
    rewrite (member_query_Some w user room Huniq Hin Hmem).
    unfold utcnow, insert_one, getitem. rewrite Hs.
    unfold mret, M_ret, collection. cbn [clock generated db].
    rewrite lookup_insert_eq, insert_insert_eq. cbn [from_option id].
    by rewrite <- app_assoc. }
  subst w'. rewrite Hrun. cbn [fst snd]. split; [done|].
  split; [|split; [|done]].
  - unfold collection. cbn [db]. by rewrite lookup_insert_eq.
  - intros name Hne. unfold collection. cbn [db].
    by rewrite lookup_insert_ne.
Qed.

(** C3. From a store with at most one chatroom per ordered pair, every
    sequence of requests leads to such a store again. In such a store, a
    [create_chatroom] for a pair [(u, s)] of different ids that has no
    chatroom succeeds and appends the chatroom of that pair, touching no
    other collection; after it, and after any further requests, a
    [create_chatroom] for the same ordered pair fails with the 400 error
    "Chatroom already exists between this user and seller." and changes
    nothing; and a [create_chatroom] for the reverse pair [(s, u)], when
    that pair had no chatroom, is not refused. *)
Theorem chatroom_pair_unique (w : World) :
  one_chatroom_per_pair w →
  (∀ rs, one_chatroom_per_pair (run utcnow_iso new_oid rs w)) ∧
  (∀ seller_id user,
     user_id user ≠ seller_id →
     ¬ has_chatroom w (user_id user) seller_id →
     let w1 := snd (create_chatroom utcnow_iso new_oid seller_id user w) in
     (∃ resp,
        fst (create_chatroom utcnow_iso new_oid seller_id user w) = Ok resp) ∧
     collection w1 "chatrooms"
       = collection w "chatrooms"
         ++ [chatroom_doc utcnow_iso new_oid seller_id user w] ∧
     (∀ name, name ≠ "chatrooms" → collection w1 name = collection w name) ∧
     (∀ rs user',
        user_id user' = user_id user →
        create_chatroom utcnow_iso new_oid seller_id user'
          (run utcnow_iso new_oid rs w1)
        = (Raise conflict, run utcnow_iso new_oid rs w1)) ∧
     (∀ user',
        user_id user' = seller_id →
        ¬ has_chatroom w seller_id (user_id user) →
        ∃ resp,
          fst (create_chatroom utcnow_iso new_oid (user_id user) user' w1)
          = Ok resp)).
Proof.
  intros Hinv. split; [intros rs; by apply run_invariant|].
  intros seller_id user Hne Hno w1.
  assert (collection w1 "chatrooms"
          = collection w "chatrooms"
            ++ [chatroom_doc utcnow_iso new_oid seller_id user w]) as Hrooms.
  { subst w1. rewrite create_chatroom_fresh by done.
    unfold collection. cbn [snd db]. by rewrite lookup_insert_eq. }
  assert (has_chatroom w1 (user_id user) seller_id) as Hhas.
  { exists (chatroom_doc utcnow_iso new_oid seller_id user w). rewrite Hrooms.
    split; [apply elem_of_app; right; apply list_elem_of_singleton; done|done]. }
  split; [|split; [done|split; [|split]]].
  - rewrite create_chatroom_fresh by done. by eexists.
  - intros name Hname. subst w1. rewrite create_chatroom_fresh by done.
    unfold collection. cbn [snd db]. by rewrite lookup_insert_ne.
  - intros rs user' Hu. apply create_chatroom_conflict; [by rewrite Hu|].
    rewrite Hu. by apply run_has_chatroom.
  - intros user' Hu Hrev.
    rewrite create_chatroom_fresh; [by eexists| by rewrite Hu |].
    rewrite Hu. intros (d & Hd & Hdu & Hds). rewrite Hrooms in Hd.
    apply elem_of_app in Hd as [Hd|Hd].
    + apply Hrev. by exists d.
    + apply list_elem_of_singleton in Hd. subst d.
      unfold chatroom_doc in Hdu. simpl in Hdu.
      rewrite lookup_insert_eq in Hdu. congruence.
Qed.

(** C4. For every requester and every [seller_id] equal to the requester's
    own id, [create_chatroom] fails with the 400 error "User cannot create a
    chatroom with themselves." and the store, the clock and the id generator
    are left as they were. *)
Theorem create_chatroom_self (seller_id : string) (user : User) (w : World) :
  user_id user = seller_id →
  create_chatroom utcnow_iso new_oid seller_id user w = (Raise self_chatroom, w).
Proof.
  intros Heq. unfold create_chatroom.
  destruct (decide (user_id user = seller_id)); [done | contradiction].
Qed.

(** C9. The outcome of [send_message] depends on the request body through
    its [content] only: two bodies with the same content, whatever their
    [user_id], [username] and [timestamp], give the same response and the
    same store. And what is stored for the requester, once the membership
    check has passed, is the document made of the requested chatroom id, the
    [user_id] and the [username] of the authenticated identity, the content
    of the body and the reading of the server clock; it is followed by the
    reply at most. *)
Theorem send_message_ignores_body_identity (chatroom_id : string)
    (message message' : Message.t) (user : User) (w : World) :
  Message.content message = Message.content message' →
  send_message utcnow_iso new_oid chatroom_id message user w
    = send_message utcnow_iso new_oid chatroom_id message' user w ∧
  (∀ oid,
     ObjectId_of_str chatroom_id = Some oid →
     member_room w oid (user_id user) →
     ∃ stored rest,
       collection
         (snd (send_message utcnow_iso new_oid chatroom_id message user w))
         "messages" = collection w "messages" ++ stored :: rest ∧
       length rest ≤ 1 ∧
       stored = user_message_doc (new_oid (generated w)) chatroom_id user
                  (Message.content message') (utcnow_iso (clock w)) ∧
       fields stored !! "user_id" = Some (user_id user) ∧
       fields stored !! "username" = Some (username user) ∧
       fields stored !! "timestamp" = Some (utcnow_iso (clock w)) ∧
       fields stored !! "content" = Some (Message.content message')).
Proof.
  intros Hc. split; [unfold send_message; by rewrite Hc|].
  intros oid Hoid Hmem.
  unfold send_message, ObjectId_, find_one, mbind, M_bind.
  rewrite Hoid. unfold mret, M_ret.
  destruct (member_query_is_Some w oid user Hmem) as [room ->].
  unfold utcnow, insert_one, getitem. rewrite Hc.
  destruct (fields room !! "seller_id") as [s|];
    unfold mret, M_ret, raise, collection; cbn [snd clock generated db];
    rewrite !lookup_insert_eq; cbn [from_option id].
  - exists (user_message_doc (new_oid (generated w)) chatroom_id user
              (Message.content message') (utcnow_iso (clock w))),
           [seller_reply_doc (new_oid (S (generated w))) chatroom_id s
              (utcnow_iso (S (clock w)))].
    rewrite <- app_assoc. repeat split; [simpl; lia].
  - exists (user_message_doc (new_oid (generated w)) chatroom_id user
              (Message.content message') (utcnow_iso (clock w))), [].
    repeat split; [simpl; lia].
Qed.

(** C10, as amended. A [chatroom_id] that the [ObjectId] constructor
    refuses makes [get_messages] and [send_message] end with the
    unclassified [InvalidId] error whatever the store holds, and leaves the
    store untouched; so when either handler ends with a 404 error, the
    constructor accepted the id. The constructor refuses exactly the strings
    that are not of length 24 or that [bytes.fromhex] does not read as digit
    pairs and whitespace: so it refuses every string with a character that
    is neither a hexadecimal digit nor ASCII whitespace, and it accepts
    every string of 24 hexadecimal digits. *)
Theorem malformed_chatroom_id (chatroom_id : string) (message : Message.t)
    (user : User) :
  (ObjectId_of_str chatroom_id = None ↔
   ¬ (String.length chatroom_id = 24 ∧ hex_pairs chatroom_id)) ∧
  (¬ Forall (λ c, is_hex c ∨ is_space c = true)
       (list_ascii_of_string chatroom_id) →
   ObjectId_of_str chatroom_id = None) ∧
  (String.length chatroom_id = 24 →
   Forall is_hex (list_ascii_of_string chatroom_id) →
   is_Some (ObjectId_of_str chatroom_id)) ∧
  (ObjectId_of_str chatroom_id = None →
   ∀ w, get_messages chatroom_id user w = (Raise (InvalidId chatroom_id), w) ∧
        send_message utcnow_iso new_oid chatroom_id message user w
          = (Raise (InvalidId chatroom_id), w)) ∧
  (∀ w detail,
     fst (get_messages chatroom_id user w) = Raise (HTTPException 404 detail) ∨
     fst (send_message utcnow_iso new_oid chatroom_id message user w)
       = Raise (HTTPException 404 detail) →
     is_Some (ObjectId_of_str chatroom_id)).
Proof.
  assert (ObjectId_of_str chatroom_id = None ↔
          ¬ (String.length chatroom_id = 24 ∧ hex_pairs chatroom_id)) as Hiff.
  { by rewrite <- ObjectId_of_str_is_Some, eq_None_not_Some. }
  split; [done|]. split; [|split; [|split]].
  - intros Hbad. apply Hiff. intros [_ Hpairs].
    apply Hbad. by apply hex_pairs_chars.
  - intros Hlen Hhex. apply ObjectId_of_str_is_Some. split; [done|].
    by apply (hex_digits_pairs 12).
  - intros Hbad w.
    unfold get_messages, send_message, ObjectId_, mbind, M_bind.
    by rewrite Hbad.
  - intros w detail.
    unfold get_messages, send_message, ObjectId_, mbind, M_bind.
    destruct (ObjectId_of_str chatroom_id) as [oid|]; [by eexists|].
    simpl. intros [?|?]; discriminate.
Qed.

End ExecutionFacts.

(** C5. For a well-formed id of a chatroom the requester belongs to:
    when no stored message carries that chatroom id, [get_messages] fails
    with the 404 error "No messages found in this chatroom" instead of
    returning an empty list; an answer has at most 100 entries, is never
    empty, and its entries are, in store order, the four fields [user_id],
    [username], [content] and [timestamp] of the first 100 stored messages
    carrying that chatroom id; and when those messages have the four fields,
    there is an answer. *)
Theorem get_messages_listing (chatroom_id : string) (oid : ObjectId)
    (user : User) (w : World) :
  ObjectId_of_str chatroom_id = Some oid →
  member_room w oid (user_id user) →
  let stored := stored_messages w chatroom_id in
  (stored = [] → get_messages chatroom_id user w = (Raise no_messages, w)) ∧
  (∀ ms, fst (get_messages chatroom_id user w) = Ok ms →
         length ms ≤ 100 ∧ ms ≠ [] ∧ Forall2 shows (take 100 stored) ms) ∧
  Forall (λ d, d ∈ collection w "messages" ∧
               fields d !! "chatroom_id" = Some chatroom_id) stored ∧
  (stored ≠ [] →
   Forall (λ d, ∃ m, shows d m) (take 100 stored) →
   ∃ ms, get_messages chatroom_id user w = (Ok ms, w)).
Proof.
  intros Hoid Hmem stored.
  assert (get_messages chatroom_id user w
          = match take 100 stored with
            | [] => (Raise no_messages, w)
            | _ :: _ => message_views (take 100 stored) w
            end) as Hrun.
  { unfold get_messages, ObjectId_, find_one, find_to_list, mbind, M_bind.
    rewrite Hoid. unfold mret, M_ret.
    destruct (member_query_is_Some w oid user Hmem) as [room ->].
    rewrite find_messages_stored. fold stored.
    by destruct (take 100 stored). }
  split; [|split; [|split]].
  - intros Hnil. by rewrite Hrun, Hnil.
  - intros ms. rewrite Hrun.
    destruct (take 100 stored) as [|d l] eqn:Htake; [done|].
    intros Hok. apply message_views_Ok in Hok.
    pose proof (Forall2_length _ _ _ Hok) as Hlen.
    split; [|split; [|done]].
    + rewrite <- Hlen, <- Htake, length_take. lia.
    + intros ->. simpl in Hlen. lia.
  - apply Forall_forall. intros d Hd.
    by apply list_elem_of_filter in Hd as [? ?].
  - intros Hne Hall. rewrite Hrun.
    destruct (take 100 stored) as [|d l] eqn:Htake.
    { destruct stored; [done | discriminate]. }
    assert (∃ ms, Forall2 shows (d :: l) ms) as [ms Hms].
    { clear -Hall. induction Hall as [|x xs [m Hm] _ [ms IH]].
      - exists []. constructor.
      - exists (m :: ms). by constructor. }
    exists ms. apply message_views_Ok with (w := w) in Hms.
    pose proof (message_views_world (d :: l) w) as Hw.
    destruct (message_views (d :: l) w) as [r w1]. simpl in *. by subst.
Qed.

(** C6. When the requester has chatrooms and each fetched chatroom has a
    [seller_id], [get_user_chatrooms] succeeds, writes nothing, and its
    answer is the listing of the specification: going through the fetched
    chatrooms in order, a chatroom whose [seller_id] matches no Seller
    record contributes nothing (the request does not fail and no
    placeholder is put in its place), and a chatroom whose Seller record
    exists contributes one record, with [seller_name] "Unknown" when the
    record has no [name] and [seller_avatar] empty when it has no
    [image]. *)
Theorem get_user_chatrooms_listing (user : User) (w : World) :
  let fetched := fetched_chatrooms w (user_id user) in
  fetched ≠ [] →
  Forall (λ d, is_Some (fields d !! "seller_id")) fetched →
  get_user_chatrooms user w
    = (Ok {| status := "OK";
             data := <["chatrooms" := omap (summary w) fetched]> ∅ |}, w) ∧
  (∀ d, (∀ s, s ∈ collection w "sellers" →
              fields s !! "seller_id" ≠ fields d !! "seller_id") →
        summary w d = None) ∧
  (∀ d seller_id seller,
     fields d !! "seller_id" = Some seller_id →
     find_seller w seller_id = Some seller →
     ∃ r, summary w d = Some r ∧
          chatroom_id r = str (_id d) ∧
          (fields seller !! "name" = None → seller_name r = "Unknown") ∧
          (fields seller !! "image" = None → seller_avatar r = EmptyString) ∧
          (∀ name, fields seller !! "name" = Some name → seller_name r = name) ∧
          (∀ image, fields seller !! "image" = Some image →
                    seller_avatar r = image)).
Proof.
  intros fetched Hne Hall. split; [|split].
  - unfold get_user_chatrooms, find_to_list, mbind, M_bind.
    rewrite find_chatrooms_fetched. fold fetched.
    destruct fetched as [|d l] eqn:Hf; [done|].
    by rewrite (chatroom_loop_summary (d :: l) [] w Hall).
  - intros d Hno. unfold summary.
    destruct (fields d !! "seller_id") as [sid|] eqn:Hsid; [|done].
    unfold find_seller. rewrite head_filter_None; [done|].
    intros s Hs Heq. apply (Hno s Hs). congruence.
  - intros d sid seller Hsid Hfind. unfold summary. rewrite Hsid, Hfind.
    eexists. split; [done|]. simpl.
    destruct (fields seller !! "name"), (fields seller !! "image");
      repeat split; congruence.
Qed.

(** C7. [get_user_chatrooms] fetches at most 100 chatrooms, all of them
    stored chatrooms whose [user_id] is the requester; every record of an
    answer is for one of these, so a chatroom that has the requester as
    [seller_id] only is not listed; and when no stored chatroom has the
    requester as [user_id], the request fails with the 404 error "No
    chatrooms found for this user" and writes nothing. *)
Theorem get_user_chatrooms_own_only (user : User) (w : World) :
  let fetched := fetched_chatrooms w (user_id user) in
  length fetched ≤ 100 ∧
  Forall (λ d, d ∈ collection w "chatrooms" ∧
               fields d !! "user_id" = Some (user_id user)) fetched ∧
  (∀ resp, fst (get_user_chatrooms user w) = Ok resp →
     ∃ rs, data resp !! "chatrooms" = Some rs ∧
           length rs ≤ length fetched ∧
           Forall (λ r, ∃ d, d ∈ fetched ∧ chatroom_id r = str (_id d)) rs) ∧
  ((∀ d, d ∈ collection w "chatrooms" →
         fields d !! "user_id" ≠ Some (user_id user)) →
   get_user_chatrooms user w = (Raise no_chatrooms, w)).
Proof.
  intros fetched. split; [|split; [|split]].
  - subst fetched. unfold fetched_chatrooms. rewrite length_take. lia.
  - apply Forall_forall. intros d Hd.
    apply subseteq_take in Hd. by apply list_elem_of_filter in Hd as [? ?].
  - intros resp. unfold get_user_chatrooms, find_to_list, mbind, M_bind.
    rewrite find_chatrooms_fetched. fold fetched.
    destruct fetched as [|d l] eqn:Hf; [done|].
    pose proof (λ rs, chatroom_loop_Ok (d :: l) [] rs w) as Hloop.
    destruct (chatroom_loop (d :: l) [] w) as [[rs|e] w1]; [|done].
    specialize (Hloop rs eq_refl). rewrite app_nil_l in Hloop. intros [= <-].
    exists rs. split; [apply lookup_insert_eq|]. subst rs. split.
    + apply length_omap_le.
    + apply Forall_forall. intros r Hr.
      apply list_elem_of_omap in Hr as (c & Hc & Hsum). exists c. split; [done|].
      unfold summary in Hsum.
      destruct (fields c !! "seller_id") as [sid|]; [|done].
      destruct (find_seller w sid); by simplify_eq.
  - intros Hno. unfold get_user_chatrooms, find_to_list, mbind, M_bind.
    rewrite find_chatrooms_fetched. unfold fetched_chatrooms.
    by rewrite (filter_none_nil _ _ Hno).
Qed.

(** C8. [get_messages] writes nothing: the world after the call is the world
    before it, so a second call right after the first gives the same
    outcome, message for message. *)
Theorem get_messages_read_only (chatroom_id : string) (user : User) (w : World) :
  snd (get_messages chatroom_id user w) = w ∧
  get_messages chatroom_id user (snd (get_messages chatroom_id user w))
    = get_messages chatroom_id user w.
Proof. split; [|f_equal]; apply get_messages_world. Qed.

(** ** The scenario *)

Module ScenarioFacts.
Import Scenario.

(** C1 as stated fails on an id that is not well-formed: no chatroom has the
    id "abc", and yet neither handler answers with the 404 error; both end
    with [InvalidId]. *)
Lemma malformed_id_is_not_not_found :
  (¬ ∃ d, d ∈ collection w1 "chatrooms" ∧
          ObjectId_of_str "abc" = Some (_id d) ∧ is_member "u1" d) ∧
  fst (get_messages "abc" alice w1) = Raise (InvalidId "abc") ∧
  fst (send_message clock_at oid_at "abc" hi alice w1) = Raise (InvalidId "abc") ∧
  fst (get_messages "abc" alice w1) ≠ Raise not_found_or_not_member ∧
  fst (send_message clock_at oid_at "abc" hi alice w1)
    ≠ Raise not_found_or_not_member.
Proof.
  split; [|repeat split; try reflexivity; vm_compute; discriminate].
  intros (d & _ & Hid & _). vm_compute in Hid. discriminate.
Qed.

(** C10 as stated fails on an id that is not 24 hexadecimal digits and yet
    is accepted: eleven digit pairs between two spaces are read as an id of
    eleven bytes, and both handlers go on to the lookup and answer with the
    404 error, not with [InvalidId]. *)
Lemma whitespace_id_is_looked_up :
  String.length Scenario2.c_ws = 24 ∧
  ¬ Forall is_hex (list_ascii_of_string Scenario2.c_ws) ∧
  ObjectId_of_str Scenario2.c_ws = Some {| binary := replicate 11 255%N |} ∧
  ¬ twelve_bytes {| binary := replicate 11 255%N |} ∧
  get_messages Scenario2.c_ws alice w1 = (Raise not_found_or_not_member, w1) ∧
  send_message clock_at oid_at Scenario2.c_ws hi alice w1
    = (Raise not_found_or_not_member, w1) ∧
  fst (get_messages Scenario2.c_ws alice w1) ≠ Raise (InvalidId Scenario2.c_ws) ∧
  fst (send_message clock_at oid_at Scenario2.c_ws hi alice w1)
    ≠ Raise (InvalidId Scenario2.c_ws).
Proof.
  split; [reflexivity|]. split.
  { intros Hall. apply Forall_cons in Hall as [[h Hh] _].
    vm_compute in Hh. discriminate. }
  split; [vm_compute; reflexivity|]. split.
  { intros [Hlen _]. vm_compute in Hlen. discriminate. }
  repeat split; try (vm_compute; reflexivity); vm_compute; discriminate.
Qed.

(** Bob is in no chatroom: the first chatroom is not found for him. Nor is
    there a chatroom for the id of eleven bytes. *)
Lemma not_member_not_found_witness :
  ObjectId_of_str c0 = Some (oid_at 0) ∧
  ¬ member_room w1 (oid_at 0) (user_id bob) ∧
  get_messages c0 bob w1 = (Raise not_found_or_not_member, w1) ∧
  send_message clock_at oid_at c0 hi bob w1
    = (Raise not_found_or_not_member, w1) ∧
  ObjectId_of_str Scenario2.c_ws = Some {| binary := replicate 11 255%N |} ∧
  ¬ member_room w1 {| binary := replicate 11 255%N |} (user_id alice) ∧
  get_messages Scenario2.c_ws alice w1 = (Raise not_found_or_not_member, w1).
Proof.
  assert (ObjectId_of_str c0 = Some (oid_at 0)) as H1 by compute_done.
  assert (¬ member_room w1 (oid_at 0) (user_id bob)) as H2 by compute_done.
  assert (ObjectId_of_str Scenario2.c_ws
          = Some {| binary := replicate 11 255%N |}) as H3 by compute_done.
  assert (¬ member_room w1 {| binary := replicate 11 255%N |} (user_id alice))
    as H4 by compute_done.
  destruct (not_member_not_found clock_at oid_at c0 (oid_at 0) hi bob w1 H1 H2)
    as [Hget Hsend].
  destruct (not_member_not_found clock_at oid_at Scenario2.c_ws
              {| binary := replicate 11 255%N |} hi alice w1 H3 H4)
    as [Hget' _].
  exact (conj H1 (conj H2 (conj Hget (conj Hsend (conj H3 (conj H4 Hget')))))).
Defined.

(** Alice sends the empty message to her first chatroom. *)
Lemma send_message_two_inserts_witness :
  fst (send_message clock_at oid_at c0 empty_message alice w1)
    = Ok {| status := "OK";
            data := <["message" := "Message sent successfully"]> ∅ |} ∧
  collection w_empty_sent "messages"
    = [ user_message_doc (oid_at 2) c0 alice EmptyString "2024-05-01T10:00:02";
        seller_reply_doc (oid_at 3) c0 "s1" "2024-05-01T10:00:03" ] ∧
  collection w_empty_sent "chatrooms" = collection w1 "chatrooms".
Proof.
  pose (room := chatroom_doc clock_at oid_at "s1" alice w0).
  assert (ObjectId_of_str c0 = Some (_id room)) as H1 by compute_done.
  assert (unique_chatroom_ids w1) as H2 by compute_done.
  assert (room ∈ collection w1 "chatrooms") as H3 by compute_done.
  assert (fields room !! "user_id" = Some "u1") as H4 by compute_done.
  assert (fields room !! "seller_id" = Some "s1") as H5 by compute_done.
  assert (user_id alice = "u1" ∨ user_id alice = "s1") as H6 by (left; reflexivity).
  destruct (send_message_two_inserts clock_at oid_at c0 empty_message alice w1
              room "u1" "s1" H1 H2 H3 H4 H5 H6) as (Hok & Hmsgs & Hother & _).
  split; [exact Hok|]. split; [exact Hmsgs|].
  apply Hother. discriminate.
Defined.

(** The scenario keeps the invariant; once Alice has a chatroom with [s1],
    a second one is refused, also after further requests; and the shop may
    still open the reverse chatroom with Alice. *)
Lemma chatroom_pair_unique_witness :
  one_chatroom_per_pair w0 ∧
  one_chatroom_per_pair
    (run clock_at oid_at
       [CreateChatroom "s1" alice; CreateChatroom "s2" alice;
        SendMessage c0 hi alice] w0) ∧
  create_chatroom clock_at oid_at "s1" alice w_later = (Raise conflict, w_later) ∧
  ∃ resp, fst (create_chatroom clock_at oid_at (user_id alice) shop w_first)
          = Ok resp.
Proof.
  assert (one_chatroom_per_pair w0) as H0 by compute_done.
  destruct (chatroom_pair_unique clock_at oid_at w0 H0) as [Hinv Hcreate].
  assert (user_id alice ≠ "s1") as Hne by discriminate.
  assert (¬ has_chatroom w0 (user_id alice) "s1") as Hno by compute_done.
  destruct (Hcreate "s1" alice Hne Hno) as (_ & _ & _ & Hlater & Hrev).
  split; [exact H0|]. split; [|split].
  - apply Hinv.
  - unfold w_later, w_first.
    apply (Hlater [CreateChatroom "s2" alice; SendMessage c0 hi alice] alice).
    reflexivity.
  - unfold w_first. apply (Hrev shop); [reflexivity | compute_done].
Defined.

Lemma create_chatroom_self_witness :
  user_id alice = "u1" ∧
  create_chatroom clock_at oid_at "u1" alice w1 = (Raise self_chatroom, w1).
Proof.
  exact (conj eq_refl (create_chatroom_self clock_at oid_at "u1" alice w1 eq_refl)).
Defined.

(** The second chatroom of Alice is empty; the first holds her "Hi" and the
    reply. *)
Lemma get_messages_listing_witness :
  ObjectId_of_str c1 = Some (oid_at 1) ∧
  member_room w2 (oid_at 1) (user_id alice) ∧
  get_messages c1 alice w2 = (Raise no_messages, w2).
Proof.
  assert (ObjectId_of_str c1 = Some (oid_at 1)) as H1 by compute_done.
  assert (member_room w2 (oid_at 1) (user_id alice)) as H2 by compute_done.
  destruct (get_messages_listing c1 (oid_at 1) alice w2 H1 H2) as [Hempty _].
  split; [exact H1|]. split; [exact H2|]. apply Hempty. compute_done.
Defined.

(** Alice's listing: the chatroom with [s1], whose Seller record has no
    [name] and no [image]; the chatroom with [s2], which has no Seller
    record, is left out. *)
Lemma get_user_chatrooms_listing_witness :
  fetched_chatrooms w1 (user_id alice) ≠ [] ∧
  Forall (λ d, is_Some (fields d !! "seller_id"))
    (fetched_chatrooms w1 (user_id alice)) ∧
  get_user_chatrooms alice w1
    = (Ok {| status := "OK";
             data := <["chatrooms" :=
                         [{| chatroom_id := c0; seller_name := "Unknown";
                             seller_avatar := EmptyString |}]]> ∅ |}, w1).
Proof.
  assert (fetched_chatrooms w1 (user_id alice) ≠ []) as H1 by compute_done.
  assert (Forall (λ d, is_Some (fields d !! "seller_id"))
            (fetched_chatrooms w1 (user_id alice))) as H2 by compute_done.
  destruct (get_user_chatrooms_listing alice w1 H1 H2) as [Hrun _].
  split; [exact H1|]. split; [exact H2|]. exact Hrun.
Defined.

(** The shop is the seller of a chatroom and the buyer of none: it gets the
    404 error. *)
Lemma get_user_chatrooms_own_only_witness :
  has_chatroom w1 "u1" (user_id shop) ∧
  get_user_chatrooms shop w1 = (Raise no_chatrooms, w1).
Proof.
  split; [compute_done|].
  destruct (get_user_chatrooms_own_only shop w1) as (_ & _ & _ & Hnone).
  apply Hnone. apply Forall_forall. compute_done.
Defined.

(** The body of [hi] names Bob as its author and a time in 1999; sent by
    Alice, it is stored exactly as a body that names nobody, under Alice's
    id and name and the reading of the clock. *)
Lemma send_message_ignores_body_identity_witness :
  Message.content hi = Message.content anonymous_hi ∧
  ObjectId_of_str c0 = Some (oid_at 0) ∧
  member_room w1 (oid_at 0) (user_id alice) ∧
  send_message clock_at oid_at c0 hi alice w1
    = send_message clock_at oid_at c0 anonymous_hi alice w1 ∧
  ∃ stored rest,
    collection (snd (send_message clock_at oid_at c0 hi alice w1)) "messages"
      = collection w1 "messages" ++ stored :: rest ∧
    fields stored !! "user_id" = Some "u1" ∧
    fields stored !! "username" = Some "alice" ∧
    fields stored !! "timestamp" = Some "2024-05-01T10:00:02".
Proof.
  assert (Message.content hi = Message.content anonymous_hi) as H0
    by reflexivity.
  assert (ObjectId_of_str c0 = Some (oid_at 0)) as H1 by compute_done.
  assert (member_room w1 (oid_at 0) (user_id alice)) as H2 by compute_done.
  destruct (send_message_ignores_body_identity clock_at oid_at c0 hi
              anonymous_hi alice w1 H0) as [Hsame Hstored].
  destruct (Hstored (oid_at 0) H1 H2)
    as (stored & rest & Hmsgs & _ & _ & Hu & Hn & Ht & _).
  split; [exact H0|]. split; [exact H1|]. split; [exact H2|].
  split; [exact Hsame|].
  exists stored, rest. split; [exact Hmsgs|]. split; [exact Hu|].
  split; [exact Hn | exact Ht].
Defined.

(** An id of 23 digits, and an id of 24 characters with a letter that is no
    hexadecimal digit. *)
Lemma malformed_chatroom_id_witness :
  ObjectId_of_str "00000000000000000000000" = None ∧
  ObjectId_of_str "00000000000000000000000g" = None ∧
  get_messages "00000000000000000000000g" alice w1
    = (Raise (InvalidId "00000000000000000000000g"), w1) ∧
  send_message clock_at oid_at "00000000000000000000000g" hi alice w1
    = (Raise (InvalidId "00000000000000000000000g"), w1).
Proof.
  assert (ObjectId_of_str "00000000000000000000000" = None) as H1 by compute_done.
  assert (ObjectId_of_str "00000000000000000000000g" = None) as H2 by compute_done.
  destruct (malformed_chatroom_id clock_at oid_at "00000000000000000000000g"
              hi alice) as (_ & _ & _ & Hbad & _).
  split; [exact H1|]. split; [exact H2|]. exact (Hbad H2 w1).
Defined.

(** The scenario end to end: after Alice's "Hi", the first chatroom lists
    her message and the reply of the seller. *)
Lemma scenario_messages :
  get_messages c0 alice w2
  = (Ok [ {| Message.user_id := "u1"; Message.username := "alice";
             Message.content := "Hi";
             Message.timestamp := "2024-05-01T10:00:02" |};
          {| Message.user_id := "s1"; Message.username := "Seller";
             Message.content :=
               "Thank you for your message. We will get back to you shortly.";
             Message.timestamp := "2024-05-01T10:00:03" |} ], w2).
Proof. vm_compute. reflexivity. Qed.

(** The id a fresh chatroom is announced with is accepted by the handlers. *)
Lemma scenario_created_id :
  (data <$> fst_ok (create_chatroom clock_at oid_at "s1" alice w0))
    ≫= (.!! "chatroom_id") = Some c0 ∧
  ObjectId_of_str c0 = Some (oid_at 0).
Proof. split; vm_compute; reflexivity. Qed.

(** Messages are filed under the id as it was spelled in the request, while
    the chatroom is looked up by the parsed id: a message sent under the
    upper-case spelling is listed under that spelling only. *)
Lemma chatroom_id_spelling :
  ObjectId_of_str c_ab = Some (_id room_ab) ∧
  ObjectId_of_str c_AB = Some (_id room_ab) ∧
  str (_id room_ab) = c_ab ∧
  fst (get_messages c_ab alice
         (snd (send_message clock_at oid_at c_AB hi alice w_ab)))
    = Raise no_messages ∧
  (∃ ms, fst (get_messages c_AB alice
                (snd (send_message clock_at oid_at c_AB hi alice w_ab)))
         = Ok ms ∧ length ms = 2).
Proof.
  repeat split; try (vm_compute; reflexivity).
  eexists. split; vm_compute; reflexivity.
Qed.

End ScenarioFacts.

(** * Further properties of the handlers *)

(** ** The handlers, case by case *)

Lemma head_filter_Some {A : Type} (P : A → Prop) `{!∀ x, Decision (P x)}
    (l : list A) (x : A) :
  head (filter P l) = Some x → x ∈ l ∧ P x.
Proof.
  intros Hhd. assert (x ∈ filter P l) as Hin.
  { destruct (filter P l); simplify_eq/=. left. }
  by apply list_elem_of_filter in Hin as [? ?].
Qed.

Lemma message_complete_shows (d : Doc) :
  message_complete d ↔ ∃ m, shows d m.
Proof.
  unfold message_complete, message_keys, shows. split.
  - intros Hall. repeat (apply Forall_cons in Hall as [[? ?] Hall]).
    by eexists (Message.Build_t _ _ _ _).
  - intros ([u n c t] & Hu & Hn & Hc & Ht). simpl in *.
    repeat (apply Forall_cons; split; [by eexists|]). constructor.
Qed.

(** The outcome of the comprehension does not depend on the world. *)
Lemma message_views_fst (l : list Doc) (w w' : World) :
  fst (message_views l w) = fst (message_views l w').
Proof.
  assert (∀ d, fst (message_view d w) = fst (message_view d w')) as Hview.
  { intros d. unfold message_view, getitem, mbind, M_bind.
    repeat (destruct (fields d !! _); [|done]); done. }
  induction l as [|d l IH]; [done|]. simpl. unfold mbind, M_bind.
  pose proof (message_view_world d w) as H1.
  pose proof (message_view_world d w') as H2.
  specialize (Hview d).
  destruct (message_view d w) as [r1 w1], (message_view d w') as [r2 w2].
  simpl in *. subst. destruct r2 as [v|e]; [|done].
  pose proof (message_views_world l w) as H1.
  pose proof (message_views_world l w') as H2.
  destruct (message_views l w) as [r1 w1], (message_views l w') as [r2 w2].
  simpl in *. subst. by destruct r2.
Qed.

(** A comprehension over incomplete messages ends with a [KeyError] for one
    of the four keys. *)
Lemma message_views_KeyError (l : list Doc) (w : World) :
  ¬ Forall message_complete l →
  ∃ key, key ∈ message_keys ∧ fst (message_views l w) = Raise (KeyError key).
Proof.
  induction l as [|d l IH]; intros Hbad; [by destruct Hbad|].
  simpl. unfold mbind, M_bind.
  destruct (decide (message_complete d)) as [Hd|Hd].
  - destruct IH as (key & Hkey & Hrun).
    { intros Hl. apply Hbad. by constructor. }
    apply message_complete_shows in Hd as [m Hm].
    apply (message_view_Ok d w) in Hm.
    pose proof (message_view_world d w) as Hw.
    destruct (message_view d w) as [r w1]. simpl in *. subst.
    exists key. split; [done|].
    pose proof (message_views_world l w) as Hw.
    destruct (message_views l w) as [r w1]. simpl in *. by subst.
  - assert (∃ key, key ∈ message_keys ∧
                   message_view d w = (Raise (KeyError key), w)) as (key & Hkey & ->).
    { unfold message_view, getitem, mbind, M_bind, message_keys.
      destruct (fields d !! "user_id") as [u|] eqn:Hu;
        [|exists "user_id"; split; [set_solver|done]].
      destruct (fields d !! "username") as [n|] eqn:Hn;
        [|exists "username"; split; [set_solver|done]].
      destruct (fields d !! "content") as [c|] eqn:Hc;
        [|exists "content"; split; [set_solver|done]].
      destruct (fields d !! "timestamp") as [t|] eqn:Ht;
        [|exists "timestamp"; split; [set_solver|done]].
      exfalso. apply Hd. unfold message_complete, message_keys.
      repeat (apply Forall_cons; split; [by eexists|]). constructor. }
    by exists key.
Qed.

Lemma get_messages_unfold (chatroom_id : string) (user : User) (w : World) :
  get_messages chatroom_id user w
  = match ObjectId_of_str chatroom_id with
    | None => (Raise (InvalidId chatroom_id), w)
    | Some oid =>
        match head (filter (λ d, matches (member_filter oid user) d = true)
                      (collection w "chatrooms")) with
        | None => (Raise not_found_or_not_member, w)
        | Some _ =>
            match take 100 (stored_messages w chatroom_id) with
            | [] => (Raise no_messages, w)
            | d :: l => message_views (d :: l) w
            end
        end
    end.
Proof.
  unfold get_messages, ObjectId_, find_one, find_to_list, mbind, M_bind.
  destruct (ObjectId_of_str chatroom_id) as [oid|]; [|done].
  unfold mret, M_ret. destruct (head _); [|done].
  rewrite find_messages_stored. by destruct (take 100 _).
Qed.

(** [get_messages] looks at the chatrooms and at the first 100 messages
    filed under the requested id, and at nothing else. *)
Lemma get_messages_ext (chatroom_id : string) (user : User) (w w' : World) :
  collection w' "chatrooms" = collection w "chatrooms" →
  take 100 (stored_messages w' chatroom_id)
  = take 100 (stored_messages w chatroom_id) →
  fst (get_messages chatroom_id user w') = fst (get_messages chatroom_id user w).
Proof.
  intros Hrooms Hstored. rewrite !get_messages_unfold, Hrooms, Hstored.
  destruct (ObjectId_of_str chatroom_id) as [oid|]; [|done].
  destruct (head _) as [room|]; [|done].
  destruct (take 100 (stored_messages w chatroom_id)) as [|d l]; [done|].
  apply message_views_fst.
Qed.

Lemma get_user_chatrooms_unfold (user : User) (w : World) :
  get_user_chatrooms user w
  = match fetched_chatrooms w (user_id user) with
    | [] => (Raise no_chatrooms, w)
    | d :: l =>
        match chatroom_loop (d :: l) [] w with
        | (Ok rs, w') =>
            (Ok {| status := "OK"; data := <["chatrooms" := rs]> ∅ |}, w')
        | (Raise e, w') => (Raise e, w')
        end
    end.
Proof.
  unfold get_user_chatrooms, find_to_list, mbind, M_bind.
  rewrite find_chatrooms_fetched.
  destruct (fetched_chatrooms w (user_id user)) as [|d l]; [done|].
  by destruct (chatroom_loop (d :: l) [] w) as [[rs|e] w'].
Qed.

(** The loop stops with a [KeyError] at a chatroom without [seller_id]. *)
Lemma chatroom_loop_KeyError (l : list Doc) (acc : list ChatroomResponse)
    (w : World) :
  ¬ Forall has_seller_id l →
  chatroom_loop l acc w = (Raise (KeyError "seller_id"), w).
Proof.
  revert acc. induction l as [|d l IH]; intros acc Hbad; [by destruct Hbad|].
  simpl. unfold getitem, find_one, mbind, M_bind.
  destruct (fields d !! "seller_id") as [s|] eqn:Hs; [|done].
  assert (¬ Forall has_seller_id l) as Hl.
  { intros Hl. apply Hbad. constructor; [by exists s | done]. }
  unfold mret, M_ret. destruct (head _); by apply IH.
Qed.

Section HandlerCases.

Variable utcnow_iso : nat → string.
Variable new_oid : nat → ObjectId.

Lemma send_message_unfold (chatroom_id : string) (message : Message.t)
    (user : User) (w : World) :
  send_message utcnow_iso new_oid chatroom_id message user w
  = match ObjectId_of_str chatroom_id with
    | None => (Raise (InvalidId chatroom_id), w)
    | Some oid =>
        match head (filter (λ d, matches (member_filter oid user) d = true)
                      (collection w "chatrooms")) with
        | None => (Raise not_found_or_not_member, w)
        | Some room =>
            let m1 := user_message_doc (new_oid (generated w)) chatroom_id user
                        (Message.content message) (utcnow_iso (clock w)) in
            match fields room !! "seller_id" with
            | None =>
                (Raise (KeyError "seller_id"),
                 {| db := <["messages" := collection w "messages" ++ [m1]]> (db w);
                    clock := S (clock w);
                    generated := S (generated w) |})
            | Some s =>
                let m2 := seller_reply_doc (new_oid (S (generated w)))
                            chatroom_id s (utcnow_iso (S (clock w))) in
                (Ok sent,
                 {| db := <["messages" :=
                              collection w "messages" ++ [m1; m2]]> (db w);
                    clock := S (S (clock w));
                    generated := S (S (generated w)) |})
            end
        end
    end.
Proof.
  unfold send_message, ObjectId_, find_one, mbind, M_bind.
  destruct (ObjectId_of_str chatroom_id) as [oid|]; [|done].
  unfold mret, M_ret. destruct (head _) as [room|]; [|done].
  unfold utcnow, insert_one, getitem.
  destruct (fields room !! "seller_id") as [s|]; [|done].
  unfold mret, M_ret, collection. cbn [clock generated db].
  rewrite lookup_insert_eq, insert_insert_eq. cbn [from_option id].
  by rewrite <- app_assoc.
Qed.

(** What [send_message] appends to the [messages] collection on any path:
    at most two documents, each filed under the requested id, complete, and
    written by a member of the chatroom that id denotes. *)
Lemma send_message_appends (chatroom_id : string) (message : Message.t)
    (user : User) (w : World) :
  ∃ new,
    collection (snd (send_message utcnow_iso new_oid chatroom_id message user w))
      "messages" = collection w "messages" ++ new ∧
    length new ≤ 2 ∧
    Forall (λ m, fields m !! "chatroom_id" = Some chatroom_id ∧
                 message_complete m ∧ message_in_room w m) new.
Proof.
  rewrite send_message_unfold.
  destruct (ObjectId_of_str chatroom_id) as [oid|] eqn:Hoid;
    [|exists []; rewrite app_nil_r; repeat split; [simpl; lia | constructor]].
  destruct (head _) as [room|] eqn:Hroom;
    [|exists []; rewrite app_nil_r; repeat split; [simpl; lia | constructor]].
  apply head_filter_Some in Hroom as [Hin Hm].
  apply matches_member_filter in Hm as [Hid Hmem].
  assert (∀ o c n, let m := user_message_doc o chatroom_id user c n in
            fields m !! "chatroom_id" = Some chatroom_id ∧
            message_complete m ∧ message_in_room w m) as Hm1.
  { intros o c n m. split; [done|]. split.
    - unfold message_complete, message_keys.
      repeat (apply Forall_cons; split; [by eexists|]). constructor.
    - unfold message_in_room.
      replace (fields m !! "chatroom_id") with (Some chatroom_id) by done.
      replace (fields m !! "user_id") with (Some (user_id user)) by done.
      rewrite Hoid. by exists room. }
  destruct (fields room !! "seller_id") as [s|] eqn:Hs; cbn zeta.
  - eexists [_; _]. unfold collection at 1. cbn [snd db].
    rewrite lookup_insert_eq. split; [done|]. split; [simpl; lia|].
    constructor; [apply Hm1|]. constructor; [|constructor].
    split; [done|]. split.
    + unfold message_complete, message_keys.
      repeat (apply Forall_cons; split; [by eexists|]). constructor.
    + unfold message_in_room, seller_reply_doc. cbn [fields].
      replace (_ !! "chatroom_id") with (Some chatroom_id) by done.
      replace (_ !! "user_id") with (Some s) by done.
      rewrite Hoid. exists room. split; [done|]. split; [done|]. by right.
  - eexists [_]. unfold collection at 1. cbn [snd db].
    rewrite lookup_insert_eq. split; [done|]. split; [simpl; lia|].
    constructor; [apply Hm1|constructor].
Qed.

End HandlerCases.

(** ** Outcomes of the single handlers *)

Section MoreResults.

Variable utcnow_iso : nat → string.
Variable new_oid : nat → ObjectId.

(** X1. [create_chatroom] has exactly three outcomes, decided by the
    requester, the seller id and the stored chatrooms alone: the 400 error
    for a chatroom with oneself exactly when the two ids are equal (whether
    or not such a chatroom is stored), the 400 error for an existing
    chatroom exactly when the ids differ and the ordered pair has a
    chatroom, and otherwise the acknowledgement carrying the string of the
    generated id. A failed call leaves the world as it was. *)
Theorem create_chatroom_outcomes (seller_id : string) (user : User) (w : World) :
  (fst (create_chatroom utcnow_iso new_oid seller_id user w) = Raise self_chatroom
   ↔ user_id user = seller_id) ∧
  (fst (create_chatroom utcnow_iso new_oid seller_id user w) = Raise conflict
   ↔ user_id user ≠ seller_id ∧ has_chatroom w (user_id user) seller_id) ∧
  (fst (create_chatroom utcnow_iso new_oid seller_id user w)
   = Ok (created (new_oid (generated w)))
   ↔ user_id user ≠ seller_id ∧ ¬ has_chatroom w (user_id user) seller_id) ∧
  (∀ resp, fst (create_chatroom utcnow_iso new_oid seller_id user w) = Ok resp →
           resp = created (new_oid (generated w))) ∧
  (∀ e, fst (create_chatroom utcnow_iso new_oid seller_id user w) = Raise e →
        snd (create_chatroom utcnow_iso new_oid seller_id user w) = w).
Proof.
  destruct (decide (user_id user = seller_id)) as [Heq|Hne].
  { assert (create_chatroom utcnow_iso new_oid seller_id user w
            = (Raise self_chatroom, w)) as ->.
    { unfold create_chatroom. by rewrite decide_True. }
    cbn [fst snd]. repeat split; try done; try discriminate;
      try (intros [? _]; contradiction). }
  destruct (decide (has_chatroom w (user_id user) seller_id)) as [Hhas|Hno].
  - rewrite create_chatroom_conflict by done.
    cbn [fst snd]. repeat split; try done; try discriminate;
      try (intros [_ ?]; contradiction).
  - rewrite create_chatroom_fresh by done.
    cbn [fst snd]. repeat split; try done; try discriminate;
      try (intros [_ ?]; contradiction); try (by intros resp [= <-]).
Qed.

(** X2. When the generator hands out twelve-byte ids, the [chatroom_id]
    that a successful [create_chatroom] announces is a well-formed id that
    reads back as the id of the new chatroom; both the requester and the
    seller are members of it; and as long as no message is filed under that
    id, [get_messages] answers either of them with the 404 error "No
    messages found in this chatroom". *)
Theorem created_chatroom_opens (seller_id : string) (user : User) (w : World)
    (resp : Envelope (gmap string string)) :
  twelve_bytes (new_oid (generated w)) →
  fst (create_chatroom utcnow_iso new_oid seller_id user w) = Ok resp →
  ∃ cid,
    data resp !! "chatroom_id" = Some cid ∧
    ObjectId_of_str cid = Some (new_oid (generated w)) ∧
    member_room (snd (create_chatroom utcnow_iso new_oid seller_id user w))
      (new_oid (generated w)) (user_id user) ∧
    member_room (snd (create_chatroom utcnow_iso new_oid seller_id user w))
      (new_oid (generated w)) seller_id ∧
    (∀ requester,
       user_id requester = user_id user ∨ user_id requester = seller_id →
       stored_messages w cid = [] →
       get_messages cid requester
         (snd (create_chatroom utcnow_iso new_oid seller_id user w))
       = (Raise no_messages,
          snd (create_chatroom utcnow_iso new_oid seller_id user w))).
Proof.
  intros Hbytes Hok.
  destruct (decide (user_id user = seller_id)) as [Heq|Hne].
  { unfold create_chatroom in Hok. by rewrite decide_True in Hok. }
  destruct (decide (has_chatroom w (user_id user) seller_id)) as [Hhas|Hno].
  { by rewrite create_chatroom_conflict in Hok. }
  rewrite create_chatroom_fresh in * by done. cbn [fst snd] in *.
  injection Hok as <-. set (oid := new_oid (generated w)) in *.
  set (w1 := {| db := _; clock := _; generated := _ |}).
  assert (chatroom_doc utcnow_iso new_oid seller_id user w
            ∈ collection w1 "chatrooms") as Hin.
  { unfold collection. cbn [db w1]. rewrite lookup_insert_eq.
    apply elem_of_app. right. by apply list_elem_of_singleton. }
  assert (∀ r, r = user_id user ∨ r = seller_id → member_room w1 oid r) as Hmem.
  { intros r Hr. exists (chatroom_doc utcnow_iso new_oid seller_id user w).
    split; [done|]. split; [done|].
    destruct Hr as [-> | ->]; [by left | by right]. }
  exists (str oid). split; [done|].
  split; [by apply ObjectId_of_str_str|].
  split; [apply Hmem; by left|]. split; [apply Hmem; by right|].
  intros requester Hreq Hempty.
  rewrite get_messages_unfold, ObjectId_of_str_str by done.
  destruct (member_query_is_Some w1 oid requester (Hmem _ Hreq)) as [room ->].
  assert (stored_messages w1 (str oid) = stored_messages w (str oid)) as ->.
  { unfold stored_messages, collection. cbn [db w1].
    by rewrite lookup_insert_ne. }
  by rewrite Hempty.
Qed.

(** X3. A [send_message] to a chatroom whose document has no [seller_id]
    (the requester being its [user_id], the chatroom ids being pairwise
    different) ends with [KeyError] for "seller_id" after the requester's
    message has been stored: the [messages] collection has grown by that one
    document, there is no reply, and no other collection has changed. *)
Theorem send_message_without_seller (chatroom_id : string)
    (message : Message.t) (user : User) (w : World) (room : Doc) :
  ObjectId_of_str chatroom_id = Some (_id room) →
  unique_chatroom_ids w →
  room ∈ collection w "chatrooms" →
  fields room !! "user_id" = Some (user_id user) →
  fields room !! "seller_id" = None →
  fst (send_message utcnow_iso new_oid chatroom_id message user w)
    = Raise (KeyError "seller_id") ∧
  collection (snd (send_message utcnow_iso new_oid chatroom_id message user w))
    "messages"
    = collection w "messages"
      ++ [user_message_doc (new_oid (generated w)) chatroom_id user
            (Message.content message) (utcnow_iso (clock w))] ∧
  (∀ name,
     name ≠ "messages" →
     collection (snd (send_message utcnow_iso new_oid chatroom_id message user w))
       name = collection w name).
Proof.
  intros Hoid Huniq Hin Hu Hs.
  assert (is_member (user_id user) room) as Hmem by (by left).
  rewrite send_message_unfold, Hoid.
  rewrite (member_query_Some w user room Huniq Hin Hmem), Hs.
  cbn [fst snd]. split; [done|]. unfold collection. cbn [db]. split.
  - by rewrite lookup_insert_eq.
  - intros name Hne. by rewrite lookup_insert_ne.
Qed.

(** X4. A [send_message] under one chatroom id, whatever its outcome,
    changes nothing for any other id string: the messages filed under the
    other id are the same, and [get_messages] for the other id gives every
    requester the same outcome as before. *)
Theorem send_message_isolated (chatroom_id : string) (message : Message.t)
    (user : User) (w : World) (other : string) (requester : User) :
  other ≠ chatroom_id →
  stored_messages
    (snd (send_message utcnow_iso new_oid chatroom_id message user w)) other
    = stored_messages w other ∧
  fst (get_messages other requester
         (snd (send_message utcnow_iso new_oid chatroom_id message user w)))
    = fst (get_messages other requester w).
Proof.
  intros Hother.
  assert (stored_messages
            (snd (send_message utcnow_iso new_oid chatroom_id message user w))
            other = stored_messages w other) as Hstored.
  { destruct (send_message_appends utcnow_iso new_oid chatroom_id message user w)
      as (new & Hnew & _ & Hall).
    unfold stored_messages. rewrite Hnew, filter_app.
    rewrite (filter_none_nil _ new); [by rewrite app_nil_r|].
    intros m Hm Hfiled.
    apply (proj1 (Forall_forall _ _) Hall) in Hm as [Hcid _]. congruence. }
  split; [done|]. apply get_messages_ext.
  - by apply send_message_other_collections.
  - by rewrite Hstored.
Qed.

(** X5. After a successful [send_message], the messages filed under the
    requested id are the earlier ones followed by the requester's message
    and the reply of the seller of the chatroom. If at most 98 were filed
    before, [get_messages] for that id then answers the requester with the
    earlier listing followed by these two; if 100 or more were filed before,
    its answer is what it was, and the new messages are not listed. *)
Theorem send_then_list (chatroom_id : string) (message : Message.t)
    (user : User) (w : World) :
  fst (send_message utcnow_iso new_oid chatroom_id message user w) = Ok sent →
  ∃ room s,
    room ∈ collection w "chatrooms" ∧
    ObjectId_of_str chatroom_id = Some (_id room) ∧
    is_member (user_id user) room ∧
    fields room !! "seller_id" = Some s ∧
    stored_messages
      (snd (send_message utcnow_iso new_oid chatroom_id message user w))
      chatroom_id
    = stored_messages w chatroom_id
      ++ [user_message_doc (new_oid (generated w)) chatroom_id user
            (Message.content message) (utcnow_iso (clock w));
          seller_reply_doc (new_oid (S (generated w))) chatroom_id s
            (utcnow_iso (S (clock w)))] ∧
    (∀ ms,
       length (stored_messages w chatroom_id) ≤ 98 →
       Forall2 shows (stored_messages w chatroom_id) ms →
       fst (get_messages chatroom_id user
              (snd (send_message utcnow_iso new_oid chatroom_id message user w)))
       = Ok (ms ++ [user_view user (Message.content message)
                      (utcnow_iso (clock w));
                    seller_view s (utcnow_iso (S (clock w)))])) ∧
    (100 ≤ length (stored_messages w chatroom_id) →
     fst (get_messages chatroom_id user
            (snd (send_message utcnow_iso new_oid chatroom_id message user w)))
     = fst (get_messages chatroom_id user w)).
Proof.
  intros Hok.
  pose proof (send_message_other_collections utcnow_iso new_oid chatroom_id
                message user w "chatrooms") as Hrooms.
  rewrite send_message_unfold in *.
  destruct (ObjectId_of_str chatroom_id) as [oid|] eqn:Hoid; [|done].
  destruct (head _) as [room|] eqn:Hroom; [|done].
  destruct (fields room !! "seller_id") as [s|] eqn:Hs; [|done].
  cbn zeta in *. cbn [fst snd] in *. exists room, s.
  pose proof (head_filter_Some _ _ _ Hroom) as [Hin Hmatch].
  apply matches_member_filter in Hmatch as [Hid Hmem].
  split; [done|]. split; [by rewrite Hid|]. split; [done|]. split; [done|].
  set (m1 := user_message_doc _ _ _ _ _) in *.
  set (m2 := seller_reply_doc _ _ _ _) in *.
  set (w' := {| db := _; clock := _; generated := _ |}) in *.
  assert (stored_messages w' chatroom_id
          = stored_messages w chatroom_id ++ [m1; m2]) as Hstored.
  { unfold stored_messages, collection. cbn [db w'].
    rewrite lookup_insert_eq. cbn [from_option id].
    rewrite filter_app. f_equal.
    rewrite filter_cons_True by done. by rewrite filter_cons_True by done. }
  split; [done|]. split.
  - intros ms Hlen Hms.
    rewrite get_messages_unfold, Hoid, (Hrooms ltac:(done)), Hroom, Hstored.
    rewrite take_ge by (rewrite length_app; simpl; lia).
    assert (Forall2 shows (stored_messages w chatroom_id ++ [m1; m2])
              (ms ++ [user_view user (Message.content message)
                        (utcnow_iso (clock w));
                      seller_view s (utcnow_iso (S (clock w)))])) as Hall.
    { apply Forall2_app; [done|]. by repeat constructor. }
    apply (message_views_Ok _ w') in Hall.
    destruct (stored_messages w chatroom_id ++ [m1; m2]) as [|d l] eqn:Heq;
      [|done].
    apply app_eq_nil in Heq as [_ ?]. discriminate.
  - intros Hlen. apply get_messages_ext; [by apply Hrooms|].
    rewrite Hstored. by rewrite take_app_le by lia.
Qed.

(** X6. For a well-formed id of a chatroom the requester belongs to,
    [get_messages] ends with a [KeyError] exactly when one of the first 100
    messages filed under that id lacks one of the keys [user_id],
    [username], [content], [timestamp]; the key is one of these four, and
    nothing is written. An incomplete message beyond the first 100 does no
    harm. *)
Theorem get_messages_missing_key (chatroom_id : string) (oid : ObjectId)
    (user : User) (w : World) :
  ObjectId_of_str chatroom_id = Some oid →
  member_room w oid (user_id user) →
  (Forall message_complete (take 100 (stored_messages w chatroom_id)) →
   ∀ key, fst (get_messages chatroom_id user w) ≠ Raise (KeyError key)) ∧
  (¬ Forall message_complete (take 100 (stored_messages w chatroom_id)) →
   ∃ key, key ∈ message_keys ∧
          get_messages chatroom_id user w = (Raise (KeyError key), w)).
Proof.
  intros Hoid Hmem. rewrite get_messages_unfold, Hoid.
  destruct (member_query_is_Some w oid user Hmem) as [room ->].
  destruct (take 100 (stored_messages w chatroom_id)) as [|d l]; split.
  - done.
  - intros Hbad. destruct Hbad. constructor.
  - intros Hall key Hrun.
    assert (∃ ms, Forall2 shows (d :: l) ms) as [ms Hms].
    { clear -Hall. induction Hall as [|x xs Hx _ [ms IH]].
      - exists []. constructor.
      - apply message_complete_shows in Hx as [m Hm].
        exists (m :: ms). by constructor. }
    apply (message_views_Ok _ w) in Hms. congruence.
  - intros Hbad.
    destruct (message_views_KeyError (d :: l) w Hbad) as (key & Hkey & Hrun).
    exists key. split; [done|].
    pose proof (message_views_world (d :: l) w) as Hw.
    destruct (message_views (d :: l) w) as [r w1]. simpl in *. by subst.
Qed.

End MoreResults.

(** X7. When one of the chatrooms fetched for the requester has no
    [seller_id], [get_user_chatrooms] ends with [KeyError] for "seller_id":
    the whole request fails, also when other fetched chatrooms could have
    been listed, and nothing is written. *)
Theorem get_user_chatrooms_missing_seller_id (user : User) (w : World) :
  ¬ Forall has_seller_id (fetched_chatrooms w (user_id user)) →
  get_user_chatrooms user w = (Raise (KeyError "seller_id"), w).
Proof.
  intros Hbad. rewrite get_user_chatrooms_unfold.
  destruct (fetched_chatrooms w (user_id user)) as [|d l];
    [destruct Hbad; constructor|].
  by rewrite chatroom_loop_KeyError.
Qed.

(** X8. [get_user_chatrooms] writes nothing, on every path: the world after
    the call is the world before it, so a second call right after the first
    gives the same outcome. *)
Theorem get_user_chatrooms_read_only (user : User) (w : World) :
  snd (get_user_chatrooms user w) = w ∧
  get_user_chatrooms user (snd (get_user_chatrooms user w))
    = get_user_chatrooms user w.
Proof. split; [|f_equal]; apply get_user_chatrooms_world. Qed.

Lemma summary_ext (w w' : World) (d : Doc) :
  collection w' "sellers" = collection w "sellers" →
  summary w' d = summary w d.
Proof. intros Hs. unfold summary, find_seller. by rewrite Hs. Qed.

Lemma omap_summary_ext (w w' : World) (l : list Doc) :
  collection w' "sellers" = collection w "sellers" →
  omap (summary w') l = omap (summary w) l.
Proof.
  intros Hs. induction l as [|d l IH]; [done|].
  change (omap (summary w') (d :: l))
    with (match summary w' d with
          | Some r => r :: omap (summary w') l
          | None => omap (summary w') l
          end).
  by rewrite (summary_ext w w' d Hs), IH.
Qed.

Section CreateThenList.

Variable utcnow_iso : nat → string.
Variable new_oid : nat → ObjectId.

(** X13. After a successful [create_chatroom], when the requester had fewer
    than 100 chatrooms before (each with a [seller_id]),
    [get_user_chatrooms] answers the requester with the earlier listing
    followed by the record of the new chatroom; that record is there
    exactly when the Directory has a Seller record for the seller id, so a
    chatroom opened with an unknown seller is created but never listed. *)
Theorem create_then_list (seller_id : string) (user : User) (w : World)
    (resp : Envelope (gmap string string)) :
  fst (create_chatroom utcnow_iso new_oid seller_id user w) = Ok resp →
  length (fetched_chatrooms w (user_id user)) < 100 →
  Forall has_seller_id (fetched_chatrooms w (user_id user)) →
  fst (get_user_chatrooms user
         (snd (create_chatroom utcnow_iso new_oid seller_id user w)))
    = Ok {| status := "OK";
            data := <["chatrooms" :=
                        omap (summary w) (fetched_chatrooms w (user_id user))
                        ++ omap (summary w)
                             [chatroom_doc utcnow_iso new_oid seller_id user w]]>
                      ∅ |} ∧
  (omap (summary w) [chatroom_doc utcnow_iso new_oid seller_id user w] = []
   ↔ find_seller w seller_id = None) ∧
  (∀ seller,
     find_seller w seller_id = Some seller →
     omap (summary w) [chatroom_doc utcnow_iso new_oid seller_id user w]
     = [{| chatroom_id := str (new_oid (generated w));
           seller_name := default "Unknown" (fields seller !! "name");
           seller_avatar := default EmptyString (fields seller !! "image") |}]).
Proof.
  intros Hok Hlen Hall.
  destruct (decide (user_id user = seller_id)) as [Heq|Hne].
  { unfold create_chatroom in Hok. by rewrite decide_True in Hok. }
  destruct (decide (has_chatroom w (user_id user) seller_id)) as [Hhas|Hno].
  { by rewrite create_chatroom_conflict in Hok. }
  rewrite create_chatroom_fresh in * by done. cbn [fst snd] in *. clear Hok.
  set (doc := chatroom_doc utcnow_iso new_oid seller_id user w).
  set (w1 := {| db := _; clock := _; generated := _ |}).
  assert (collection w1 "sellers" = collection w "sellers") as Hsellers.
  { unfold collection. cbn [db w1]. by rewrite lookup_insert_ne. }
  assert (fetched_chatrooms w1 (user_id user)
          = fetched_chatrooms w (user_id user) ++ [doc]) as Hf.
  { unfold fetched_chatrooms in *. rewrite length_take in Hlen.
    replace (collection w1 "chatrooms") with (collection w "chatrooms" ++ [doc]).
    - rewrite filter_app, (filter_cons_True _ doc) by done.
      rewrite filter_nil, !take_ge; [done | lia |].
      rewrite length_app. simpl. lia.
    - unfold collection. cbn [db w1]. by rewrite lookup_insert_eq. }
  split; [|split].
  - rewrite get_user_chatrooms_unfold, Hf.
    assert (Forall has_seller_id (fetched_chatrooms w (user_id user) ++ [doc]))
      as Hall'.
    { apply Forall_app. split; [done|]. apply Forall_singleton. by eexists. }
    destruct (fetched_chatrooms w (user_id user) ++ [doc]) as [|d l] eqn:Heq.
    { apply app_eq_nil in Heq as [_ ?]. discriminate. }
    rewrite chatroom_loop_summary by done. cbn [fst]. rewrite app_nil_l.
    by rewrite <- Heq, (omap_summary_ext w w1) by done; rewrite omap_app.
  - change (omap (summary w) [doc])
      with (match summary w doc with Some r => [r] | None => [] end).
    unfold summary.
    replace (fields doc !! "seller_id") with (Some seller_id) by done.
    by destruct (find_seller w seller_id).
  - intros seller Hseller.
    change (omap (summary w) [doc])
      with (match summary w doc with Some r => [r] | None => [] end).
    unfold summary.
    replace (fields doc !! "seller_id") with (Some seller_id) by done.
    rewrite Hseller.
    by destruct (fields seller !! "name"), (fields seller !! "image").
Qed.

End CreateThenList.

(** ** Conditions that every request keeps *)

Lemma complete_views (l : list Doc) :
  Forall message_complete l → ∃ ms, Forall2 shows l ms.
Proof.
  induction 1 as [|d l Hd _ [ms IH]].
  - exists []. constructor.
  - apply message_complete_shows in Hd as [m Hm].
    exists (m :: ms). by constructor.
Qed.

Lemma member_room_mono (w w' : World) (oid : ObjectId) (requester : string) :
  (∀ d, d ∈ collection w "chatrooms" → d ∈ collection w' "chatrooms") →
  member_room w oid requester → member_room w' oid requester.
Proof. intros Hsub (d & Hd & Hrest). exists d. split; [by apply Hsub | done]. Qed.

Lemma message_in_room_mono (w w' : World) (m : Doc) :
  (∀ d, d ∈ collection w "chatrooms" → d ∈ collection w' "chatrooms") →
  message_in_room w m → message_in_room w' m.
Proof.
  intros Hsub. unfold message_in_room.
  destruct (fields m !! "chatroom_id") as [c|]; [|done].
  destruct (fields m !! "user_id") as [u|]; [|done].
  destruct (ObjectId_of_str c) as [oid|]; [|done].
  by apply member_room_mono.
Qed.

Section MoreInvariants.

Variable utcnow_iso : nat → string.
Variable new_oid : nat → ObjectId.

(** What a request can do to the [chatrooms] collection, with the id
    counter: nothing, or append the chatroom of a pair of different ids,
    under the next generated id. *)
Lemma handle_chatrooms_cases (r : Request) (w : World) :
  collection (handle utcnow_iso new_oid r w) "chatrooms"
  = collection w "chatrooms" ∨
  ∃ seller_id user,
    user_id user ≠ seller_id ∧
    generated (handle utcnow_iso new_oid r w) = S (generated w) ∧
    collection (handle utcnow_iso new_oid r w) "chatrooms"
    = collection w "chatrooms"
      ++ [chatroom_doc utcnow_iso new_oid seller_id user w].
Proof.
  destruct r as [seller_id user|chatroom_id user|chatroom_id message user|user];
    simpl.
  - destruct (decide (user_id user = seller_id)) as [Heq|Hne].
    { left. unfold create_chatroom. by rewrite decide_True. }
    destruct (decide (has_chatroom w (user_id user) seller_id)) as [Hhas|Hno].
    + left. by rewrite create_chatroom_conflict.
    + right. exists seller_id, user. split; [done|].
      rewrite create_chatroom_fresh by done. split; [done|].
      unfold collection. cbn [snd db]. by rewrite lookup_insert_eq.
  - left. by rewrite get_messages_world.
  - left. by apply send_message_other_collections.
  - left. by rewrite get_user_chatrooms_world.
Qed.

Lemma handle_chatrooms_grow (r : Request) (w : World) (d : Doc) :
  d ∈ collection w "chatrooms" →
  d ∈ collection (handle utcnow_iso new_oid r w) "chatrooms".
Proof.
  intros Hd. destruct (handle_chatrooms_cases r w)
    as [-> | (seller_id & user & _ & _ & ->)]; [done|].
  apply elem_of_app. by left.
Qed.

Lemma handle_generated (r : Request) (w : World) :
  generated w ≤ generated (handle utcnow_iso new_oid r w).
Proof.
  destruct r as [seller_id user|chatroom_id user|chatroom_id message user|user];
    simpl.
  - destruct (decide (user_id user = seller_id)) as [Heq|Hne].
    { unfold create_chatroom. by rewrite decide_True. }
    destruct (decide (has_chatroom w (user_id user) seller_id)) as [Hhas|Hno].
    + by rewrite create_chatroom_conflict.
    + rewrite create_chatroom_fresh by done. simpl. lia.
  - by rewrite get_messages_world.
  - rewrite send_message_unfold.
    destruct (ObjectId_of_str chatroom_id) as [oid|]; [|done].
    destruct (head _) as [room|]; [|done].
    destruct (fields room !! "seller_id"); simpl; lia.
  - by rewrite get_user_chatrooms_world.
Qed.

(** What a request can do to the [messages] collection: append complete
    messages of members. *)
Lemma handle_messages (r : Request) (w : World) :
  ∃ new,
    collection (handle utcnow_iso new_oid r w) "messages"
    = collection w "messages" ++ new ∧
    Forall (λ m, message_complete m ∧ message_in_room w m) new.
Proof.
  destruct r as [seller_id user|chatroom_id user|chatroom_id message user|user];
    simpl.
  - exists []. rewrite app_nil_r. split; [|constructor].
    destruct (decide (user_id user = seller_id)) as [Heq|Hne].
    { unfold create_chatroom. by rewrite decide_True. }
    destruct (decide (has_chatroom w (user_id user) seller_id)) as [Hhas|Hno].
    + by rewrite create_chatroom_conflict.
    + rewrite create_chatroom_fresh by done.
      unfold collection. cbn [snd db]. by rewrite lookup_insert_ne.
  - exists []. rewrite app_nil_r, get_messages_world. split; [done|constructor].
  - destruct (send_message_appends utcnow_iso new_oid chatroom_id message user w)
      as (new & Hnew & _ & Hall).
    exists new. split; [done|].
    eapply Forall_impl; [exact Hall|]. by intros m (_ & ? & ?).
  - exists []. rewrite app_nil_r, get_user_chatrooms_world.
    split; [done|constructor].
Qed.

Lemma handle_well_formed (r : Request) (w : World) :
  well_formed w → well_formed (handle utcnow_iso new_oid r w).
Proof.
  intros [Hrooms Hmsgs]. split.
  - destruct (handle_chatrooms_cases r w)
      as [-> | (seller_id & user & _ & _ & ->)]; [done|].
    apply Forall_app. split; [done|]. apply Forall_singleton. by eexists.
  - destruct (handle_messages r w) as (new & -> & Hnew).
    apply Forall_app. split; [done|].
    eapply Forall_impl; [exact Hnew|]. by intros m [? _].
Qed.

Lemma run_well_formed (rs : list Request) (w : World) :
  well_formed w → well_formed (run utcnow_iso new_oid rs w).
Proof.
  revert w. induction rs as [|r rs IH]; intros w Hwf; [done|].
  simpl. apply IH. by apply handle_well_formed.
Qed.

Lemma well_formed_handle_error (r : Request) (w : World) (key : string) :
  well_formed w →
  handle_error utcnow_iso new_oid r w ≠ Some (KeyError key).
Proof.
  intros [Hrooms Hmsgs]. unfold handle_error, error_of.
  destruct r as [seller_id user|chatroom_id user|chatroom_id message user|user].
  - destruct (decide (user_id user = seller_id)) as [Heq|Hne].
    { unfold create_chatroom. by rewrite decide_True. }
    destruct (decide (has_chatroom w (user_id user) seller_id)) as [Hhas|Hno].
    + by rewrite create_chatroom_conflict.
    + by rewrite create_chatroom_fresh.
  - rewrite get_messages_unfold.
    destruct (ObjectId_of_str chatroom_id) as [oid|]; [|done].
    destruct (head _) as [room|]; [|done].
    destruct (take 100 (stored_messages w chatroom_id)) as [|d l] eqn:Htake;
      [done|].
    destruct (complete_views (d :: l)) as [ms Hms].
    { rewrite <- Htake. apply Forall_take, Forall_forall. intros m Hm.
      apply list_elem_of_filter in Hm as [_ Hm].
      by apply (proj1 (Forall_forall _ _) Hmsgs). }
    apply (message_views_Ok _ w) in Hms. by rewrite Hms.
  - rewrite send_message_unfold.
    destruct (ObjectId_of_str chatroom_id) as [oid|]; [|done].
    destruct (head _) as [room|] eqn:Hroom; [|done].
    apply head_filter_Some in Hroom as [Hin _].
    apply (proj1 (Forall_forall _ _) Hrooms) in Hin as [s Hs].
    by rewrite Hs.
  - rewrite get_user_chatrooms_unfold.
    destruct (fetched_chatrooms w (user_id user)) as [|d l] eqn:Hf; [done|].
    rewrite chatroom_loop_summary; [done|].
    rewrite <- Hf. apply Forall_take, Forall_forall. intros c Hc.
    apply list_elem_of_filter in Hc as [_ Hc].
    by apply (proj1 (Forall_forall _ _) Hrooms).
Qed.

(** X9. From a store in which every chatroom has a [seller_id] and every
    message has its four keys, every sequence of requests leads to such a
    store again, and no request, at any point of the sequence, ends with a
    [KeyError]: [send_message] never stops between its two writes, and the
    two listings never fail on a missing key. *)
Theorem well_formed_no_KeyError (w : World) :
  well_formed w →
  ∀ rs,
    well_formed (run utcnow_iso new_oid rs w) ∧
    ∀ r key,
      handle_error utcnow_iso new_oid r (run utcnow_iso new_oid rs w)
      ≠ Some (KeyError key).
Proof.
  intros Hwf rs. pose proof (run_well_formed rs w Hwf) as Hrun.
  split; [done|]. intros r key. by apply well_formed_handle_error.
Qed.

(** X10. No request stores a chatroom that pairs an identity with itself:
    from a store without such a chatroom, every sequence of requests leads
    to a store without one. *)
Theorem no_self_chatroom_kept (w : World) :
  no_self_chatroom w →
  ∀ rs, no_self_chatroom (run utcnow_iso new_oid rs w).
Proof.
  intros Hinv rs. revert w Hinv.
  induction rs as [|r rs IH]; intros w Hinv; [done|].
  simpl. apply IH. unfold no_self_chatroom in *.
  destruct (handle_chatrooms_cases r w)
    as [-> | (seller_id & user & Hne & _ & ->)]; [done|].
  apply Forall_app. split; [done|]. apply Forall_singleton.
  unfold distinct_pair.
  by replace (pair_of (chatroom_doc utcnow_iso new_oid seller_id user w))
    with (Some (user_id user, seller_id)).
Qed.

(** X11. Every message the service stores is filed under a well-formed id
    of a stored chatroom of which its author (the requester, or the seller
    for the reply) is the [user_id] or the [seller_id]; as chatrooms are
    never removed, a store in which all messages are so keeps this under
    every sequence of requests. *)
Theorem messages_in_rooms_kept (w : World) :
  messages_in_rooms w →
  ∀ rs, messages_in_rooms (run utcnow_iso new_oid rs w).
Proof.
  intros Hinv rs. revert w Hinv.
  induction rs as [|r rs IH]; intros w Hinv; [done|].
  simpl. apply IH. unfold messages_in_rooms in *.
  destruct (handle_messages r w) as (new & -> & Hnew).
  apply Forall_app. split.
  - eapply Forall_impl; [exact Hinv|]. intros m Hm.
    eapply message_in_room_mono; [|exact Hm]. apply handle_chatrooms_grow.
  - eapply Forall_impl; [exact Hnew|]. intros m [_ Hm].
    eapply message_in_room_mono; [|exact Hm]. apply handle_chatrooms_grow.
Qed.

(** X12. When the generator never hands out an id twice, the ids of the
    chatrooms stay pairwise different: from a store whose chatroom ids are
    pairwise different and were all generated earlier, every sequence of
    requests leads to such a store. *)
Theorem unique_chatroom_ids_kept (w : World) :
  Inj (=) (=) new_oid →
  unique_chatroom_ids w →
  ids_generated new_oid w →
  ∀ rs,
    unique_chatroom_ids (run utcnow_iso new_oid rs w) ∧
    ids_generated new_oid (run utcnow_iso new_oid rs w).
Proof.
  intros Hinj Huniq Hgen rs. revert w Huniq Hgen.
  induction rs as [|r rs IH]; intros w Huniq Hgen; [done|].
  simpl. apply IH; unfold unique_chatroom_ids, ids_generated in *.
  - destruct (handle_chatrooms_cases r w)
      as [-> | (seller_id & user & _ & _ & ->)]; [done|].
    rewrite fmap_app. apply NoDup_app. split; [done|].
    split; [|apply NoDup_singleton].
    intros oid Hold Hnew. apply list_elem_of_singleton in Hnew. subst oid.
    apply list_elem_of_fmap in Hold as (d & Hid & Hd).
    apply (proj1 (Forall_forall _ _) Hgen) in Hd.
    rewrite <- Hid in Hd. apply list_elem_of_fmap in Hd as (i & Hi & Hseq).
    apply Hinj in Hi. apply elem_of_seq in Hseq. simpl in Hi. lia.
  - pose proof (handle_generated r w) as Hle.
    assert (∀ oid, oid ∈ new_oid <$> seq 0 (generated w) →
                   oid ∈ new_oid <$> seq 0 (generated (handle utcnow_iso new_oid r w)))
      as Hmono.
    { intros oid (i & -> & Hi)%list_elem_of_fmap.
      apply list_elem_of_fmap_2, elem_of_seq.
      apply elem_of_seq in Hi. lia. }
    destruct (handle_chatrooms_cases r w)
      as [-> | (seller_id & user & _ & Hg & ->)].
    + eapply Forall_impl; [exact Hgen|]. intros d. apply Hmono.
    + apply Forall_app. split.
      * eapply Forall_impl; [exact Hgen|]. intros d. apply Hmono.
      * apply Forall_singleton. rewrite Hg.
        change (_id (chatroom_doc utcnow_iso new_oid seller_id user w))
          with (new_oid (generated w)).
        apply list_elem_of_fmap_2, elem_of_seq. lia.
Qed.

End MoreInvariants.

(** ** The further properties on the scenarios *)

Module ExtraFacts.
Import Scenario Scenario2.

(** Alice has a chatroom with [s1]: a second one is refused. *)
Lemma create_chatroom_outcomes_witness :
  has_chatroom w1 (user_id alice) "s1" ∧
  fst (create_chatroom clock_at oid_at "s1" alice w1) = Raise conflict.
Proof.
  assert (has_chatroom w1 (user_id alice) "s1") as Hhas by compute_done.
  destruct (create_chatroom_outcomes clock_at oid_at "s1" alice w1)
    as (_ & [_ Hconflict] & _).
  split; [exact Hhas|]. apply Hconflict. split; [discriminate | exact Hhas].
Defined.

(** The shop can open the chatroom that Alice has just created. *)
Lemma created_chatroom_opens_witness :
  twelve_bytes (oid_at (generated w0)) ∧
  fst (create_chatroom clock_at oid_at "s1" alice w0) = Ok (created (oid_at 0)) ∧
  ∃ cid,
    data (created (oid_at 0)) !! "chatroom_id" = Some cid ∧
    get_messages cid shop
      (snd (create_chatroom clock_at oid_at "s1" alice w0))
    = (Raise no_messages,
       snd (create_chatroom clock_at oid_at "s1" alice w0)).
Proof.
  assert (twelve_bytes (oid_at (generated w0))) as H1.
  { split; [reflexivity|]. compute_done. }
  assert (fst (create_chatroom clock_at oid_at "s1" alice w0)
          = Ok (created (oid_at 0))) as H2 by compute_done.
  destruct (created_chatroom_opens clock_at oid_at "s1" alice w0
              (created (oid_at 0)) H1 H2) as (cid & Hcid & _ & _ & _ & Hget).
  split; [exact H1|]. split; [exact H2|]. exists cid. split; [exact Hcid|].
  apply Hget; [right; reflexivity|].
  injection Hcid as <-. compute_done.
Defined.

(** Alice writes to her chatroom without [seller_id]. *)
Lemma send_message_without_seller_witness :
  ObjectId_of_str c_no_seller = Some (_id room_no_seller) ∧
  unique_chatroom_ids w_no_seller ∧
  room_no_seller ∈ collection w_no_seller "chatrooms" ∧
  fields room_no_seller !! "user_id" = Some (user_id alice) ∧
  fields room_no_seller !! "seller_id" = None ∧
  fst (send_message clock_at oid_at c_no_seller hi alice w_no_seller)
    = Raise (KeyError "seller_id") ∧
  collection
    (snd (send_message clock_at oid_at c_no_seller hi alice w_no_seller))
    "messages"
    = collection w_no_seller "messages"
      ++ [user_message_doc (oid_at (generated w_no_seller)) c_no_seller alice
            (Message.content hi) (clock_at (clock w_no_seller))].
Proof.
  assert (ObjectId_of_str c_no_seller = Some (_id room_no_seller)) as H1
    by compute_done.
  assert (unique_chatroom_ids w_no_seller) as H2 by compute_done.
  assert (room_no_seller ∈ collection w_no_seller "chatrooms") as H3
    by compute_done.
  assert (fields room_no_seller !! "user_id" = Some (user_id alice)) as H4
    by compute_done.
  assert (fields room_no_seller !! "seller_id" = None) as H5 by compute_done.
  destruct (send_message_without_seller clock_at oid_at c_no_seller hi alice
              w_no_seller room_no_seller H1 H2 H3 H4 H5) as (Hfst & Hmsgs & _).
  exact (conj H1 (conj H2 (conj H3 (conj H4 (conj H5 (conj Hfst Hmsgs)))))).
Defined.

(** Alice's "Hi" in her first chatroom leaves her second chatroom empty. *)
Lemma send_message_isolated_witness :
  c1 ≠ c0 ∧
  fst (get_messages c1 alice
         (snd (send_message clock_at oid_at c0 hi alice w1)))
    = fst (get_messages c1 alice w1).
Proof.
  assert (c1 ≠ c0) as H1 by discriminate.
  destruct (send_message_isolated clock_at oid_at c0 hi alice w1 c1 alice H1)
    as [_ Hget].
  exact (conj H1 Hget).
Defined.

(** After Alice's "Hi", the first chatroom lists her message and a reply;
    with a hundred messages already filed, the listing stays as it was. *)
Lemma send_then_list_witness :
  fst (send_message clock_at oid_at c0 hi alice w1) = Ok sent ∧
  (∃ s,
     fst (get_messages c0 alice
            (snd (send_message clock_at oid_at c0 hi alice w1)))
     = Ok ([] ++ [user_view alice (Message.content hi) (clock_at (clock w1));
                  seller_view s (clock_at (S (clock w1)))])) ∧
  fst (send_message clock_at oid_at c0 hi alice w_full) = Ok sent ∧
  fst (get_messages c0 alice
         (snd (send_message clock_at oid_at c0 hi alice w_full)))
    = fst (get_messages c0 alice w_full).
Proof.
  assert (fst (send_message clock_at oid_at c0 hi alice w1) = Ok sent) as H1
    by compute_done.
  assert (fst (send_message clock_at oid_at c0 hi alice w_full) = Ok sent) as H2
    by compute_done.
  destruct (send_then_list clock_at oid_at c0 hi alice w1 H1)
    as (room & s & _ & _ & _ & _ & _ & Hshort & _).
  destruct (send_then_list clock_at oid_at c0 hi alice w_full H2)
    as (room' & s' & _ & _ & _ & _ & _ & _ & Hcap).
  split; [exact H1|]. split; [|split; [exact H2|]].
  - exists s.
    assert (stored_messages w1 c0 = []) as Hnil by compute_done.
    specialize (Hshort []). rewrite Hnil in Hshort.
    apply Hshort; [simpl; lia | constructor].
  - apply Hcap. compute_done.
Defined.

(** The message without [content] makes the listing of the first chatroom
    fail. *)
Lemma get_messages_missing_key_witness :
  ObjectId_of_str c0 = Some (oid_at 0) ∧
  member_room w_no_content (oid_at 0) (user_id alice) ∧
  ∃ key, key ∈ message_keys ∧
         get_messages c0 alice w_no_content
         = (Raise (KeyError key), w_no_content).
Proof.
  assert (ObjectId_of_str c0 = Some (oid_at 0)) as H1 by compute_done.
  assert (member_room w_no_content (oid_at 0) (user_id alice)) as H2
    by compute_done.
  destruct (get_messages_missing_key c0 (oid_at 0) alice w_no_content H1 H2)
    as [_ Hbad].
  split; [exact H1|]. split; [exact H2|]. apply Hbad. compute_done.
Defined.

Lemma get_user_chatrooms_missing_seller_id_witness :
  ¬ Forall has_seller_id (fetched_chatrooms w_no_seller (user_id alice)) ∧
  get_user_chatrooms alice w_no_seller
    = (Raise (KeyError "seller_id"), w_no_seller).
Proof.
  assert (¬ Forall has_seller_id (fetched_chatrooms w_no_seller (user_id alice)))
    as H1 by compute_done.
  exact (conj H1 (get_user_chatrooms_missing_seller_id alice w_no_seller H1)).
Defined.

(** The scenario never meets a missing key. *)
Lemma well_formed_no_KeyError_witness :
  well_formed w0 ∧
  well_formed
    (run clock_at oid_at
       [CreateChatroom "s1" alice; CreateChatroom "s2" alice;
        SendMessage c0 hi alice] w0) ∧
  handle_error clock_at oid_at (GetMessages c0 alice)
    (run clock_at oid_at
       [CreateChatroom "s1" alice; CreateChatroom "s2" alice;
        SendMessage c0 hi alice] w0)
    ≠ Some (KeyError "content").
Proof.
  assert (well_formed w0) as H0 by compute_done.
  destruct (well_formed_no_KeyError clock_at oid_at w0 H0
              [CreateChatroom "s1" alice; CreateChatroom "s2" alice;
               SendMessage c0 hi alice]) as [Hwf Herr].
  exact (conj H0 (conj Hwf (Herr (GetMessages c0 alice) "content"))).
Defined.

Lemma no_self_chatroom_kept_witness :
  no_self_chatroom w0 ∧
  no_self_chatroom
    (run clock_at oid_at
       [CreateChatroom "u1" alice; CreateChatroom "s1" alice] w0).
Proof.
  assert (no_self_chatroom w0) as H0 by compute_done.
  exact (conj H0 (no_self_chatroom_kept clock_at oid_at w0 H0
                    [CreateChatroom "u1" alice; CreateChatroom "s1" alice])).
Defined.

Lemma messages_in_rooms_kept_witness :
  messages_in_rooms w1 ∧
  messages_in_rooms
    (run clock_at oid_at
       [SendMessage c0 hi alice; SendMessage c1 hi shop;
        SendMessage c0 hi shop] w1).
Proof.
  assert (messages_in_rooms w1) as H0 by compute_done.
  exact (conj H0 (messages_in_rooms_kept clock_at oid_at w1 H0
                    [SendMessage c0 hi alice; SendMessage c1 hi shop;
                     SendMessage c0 hi shop])).
Defined.

(** Alice opens a chatroom with [s3], which has a Seller record, and one
    with [s2], which has none. *)
Lemma create_then_list_witness :
  fst (create_chatroom clock_at oid_at "s3" alice w1) = Ok (created (oid_at 2)) ∧
  length (fetched_chatrooms w1 (user_id alice)) < 100 ∧
  Forall has_seller_id (fetched_chatrooms w1 (user_id alice)) ∧
  omap (summary w1) [chatroom_doc clock_at oid_at "s3" alice w1]
    = [{| chatroom_id := str (oid_at (generated w1));
          seller_name := "Corner Shop";
          seller_avatar := "https://img.example/s3.png" |}] ∧
  fst (get_user_chatrooms alice
         (snd (create_chatroom clock_at oid_at "s3" alice w1)))
    = Ok {| status := "OK";
            data := <["chatrooms" :=
                        omap (summary w1) (fetched_chatrooms w1 (user_id alice))
                        ++ omap (summary w1)
                             [chatroom_doc clock_at oid_at "s3" alice w1]]>
                      ∅ |}.
Proof.
  assert (fst (create_chatroom clock_at oid_at "s3" alice w1)
          = Ok (created (oid_at 2))) as H1 by compute_done.
  assert (length (fetched_chatrooms w1 (user_id alice)) < 100) as H2
    by compute_done.
  assert (Forall has_seller_id (fetched_chatrooms w1 (user_id alice))) as H3
    by compute_done.
  destruct (create_then_list clock_at oid_at "s3" alice w1
              (created (oid_at 2)) H1 H2 H3) as (Hlist & _ & Hrecord).
  split; [exact H1|]. split; [exact H2|]. split; [exact H3|].
  split; [|exact Hlist].
  apply (Hrecord seller_s3). compute_done.
Defined.

Lemma oid_at_inj : Inj (=) (=) oid_at.
Proof.
  intros i j Heq. unfold oid_at in Heq. simpl in Heq.
  injection Heq as Heq. by apply Nat2N.inj.
Defined.

Lemma unique_chatroom_ids_kept_witness :
  unique_chatroom_ids w1 ∧
  ids_generated oid_at w1 ∧
  unique_chatroom_ids
    (run clock_at oid_at
       [SendMessage c0 hi alice; CreateChatroom "s3" alice;
        CreateChatroom "u1" shop] w1).
Proof.
  assert (unique_chatroom_ids w1) as H1 by compute_done.
  assert (ids_generated oid_at w1) as H2.
  { unfold ids_generated. compute_done. }
  destruct (unique_chatroom_ids_kept clock_at oid_at w1 oid_at_inj H1 H2
              [SendMessage c0 hi alice; CreateChatroom "s3" alice;
               CreateChatroom "u1" shop]) as [Huniq _].
  exact (conj H1 (conj H2 Huniq)).
Defined.

End ExtraFacts.
